(** * rql-py: the npm installer shim, verified against its specification

    The repository ships two Node.js scripts:
    - [scripts/postinstall.js], the provisioner: it looks for a Python
      >= 3.11 interpreter, creates a virtual environment under
      [vendor/venv] and pip-installs the bundled package into it;
    - the [bin] launcher, which forwards every invocation to
      [<venv python> -m rql <args>] and relays the child's exit code or
      signal.

    Both scripts are embedded below as monadic programs over an abstract
    host (the operating system seen through Node's [child_process], [fs]
    and [process] modules).  Strings are sequences of UTF-16 code units and
    numbers are IEEE 754 binary64 values, as in JavaScript.  A run is
    followed up to the end of the Node process; every child process is
    taken to end, since neither script sets a timeout. *)

From Stdlib Require Import ZArith NArith List Bool String Ascii Lia.
From Stdlib Require Import Floats.SpecFloat.
Import ListNotations.

Set Implicit Arguments.

(* ================================================================== *)
(** * JavaScript strings and numbers *)
(* ================================================================== *)

Module JS.

Local Open Scope N_scope.

(** A JavaScript string: a finite sequence of UTF-16 code units. *)
Definition jsstring := list N.

(** ASCII literals of the scripts. *)
Definition str (s : string) : jsstring :=
  map N_of_ascii (list_ascii_of_string s).

(** [a === b] on strings. *)
Fixpoint eqb (a b : jsstring) : bool :=
  match a, b with
  | [], [] => true
  | x :: a', y :: b' => N.eqb x y && eqb a' b'
  | _, _ => false
  end.

(** ToBoolean on a string: only the empty string is falsy. *)
Definition truthy (s : jsstring) : bool :=
  match s with [] => false | _ :: _ => true end.

(** ToBoolean on [string | null]. *)
Definition truthy_opt (s : option jsstring) : bool :=
  match s with Some t => truthy t | None => false end.

(** [s.split(sep)] for a separator of one code unit. *)
Fixpoint split (sep : N) (s : jsstring) : list jsstring :=
  match s with
  | [] => [[]]
  | c :: s' =>
      if N.eqb c sep then [] :: split sep s'
      else match split sep s' with
           | p :: ps => (c :: p) :: ps
           | [] => [[c]]
           end
  end.

(** [a.slice(n)] on an array, for [n >= 0]. *)
Definition slice {A : Type} (n : nat) (a : list A) : list A := skipn n a.

(** WhiteSpace and LineTerminator code points (ECMA-262, 12.2 and 12.3):
    the characters removed by [trim] and skipped by [Number]. *)
Definition isStrWhiteSpaceChar (c : N) : bool :=
  (c =? 9) || (c =? 10) || (c =? 11) || (c =? 12) || (c =? 13) ||
  (c =? 32) || (c =? 160) || (c =? 5760) ||
  ((8192 <=? c) && (c <=? 8202)) ||
  (c =? 8232) || (c =? 8233) || (c =? 8239) || (c =? 8287) ||
  (c =? 12288) || (c =? 65279).

Fixpoint trimStart (s : jsstring) : jsstring :=
  match s with
  | c :: s' => if isStrWhiteSpaceChar c then trimStart s' else s
  | [] => []
  end.

Definition trimEnd (s : jsstring) : jsstring := rev (trimStart (rev s)).

(** [s.trim()]. *)
Definition trim (s : jsstring) : jsstring := trimEnd (trimStart s).

(** ** Numbers: IEEE 754 binary64 *)

Definition number := spec_float.

Definition prec : Z := 53.
Definition emax : Z := 1024.

Definition NaN : number := S754_nan.

(** The Number value of an integer: round to nearest, ties to even. *)
Definition of_Z (n : Z) : number := binary_normalize prec emax n 0 false.

(** The Number value of the decimal [m * 10^e] with [0 <= m], correctly
    rounded (what V8 does for a literal of any length). *)
Definition of_decimal (m e : Z) : number :=
  if (m =? 0)%Z then S754_zero false
  else if (0 <=? e)%Z then of_Z (m * 10 ^ e)
  else SFdiv prec emax (S754_finite false (Z.to_pos m) 0)
                       (S754_finite false (Z.to_pos (10 ^ (- e))) 0).

(** [a === b] on numbers: false on NaN, and +0 equals -0. *)
Definition strict_eq (a b : number) : bool := SFeqb a b.

(** [a >= b] on numbers: false as soon as one side is NaN. *)
Definition ge (a b : number) : bool := SFleb b a.

(** A destructured array element may be [undefined]: [undefined === n] is
    false, and [undefined >= n] compares ToNumber(undefined) = NaN. *)
Definition strict_eq_opt (a : option number) (b : number) : bool :=
  match a with Some x => strict_eq x b | None => false end.

Definition ge_opt (a : option number) (b : number) : bool :=
  match a with Some x => ge x b | None => ge NaN b end.

(** ** [Number(string)]: the StringNumericLiteral grammar (ECMA-262, 7.1.4.1) *)

Definition digit_of (radix : N) (c : N) : option Z :=
  let v :=
    if (48 <=? c) && (c <=? 57) then Some (c - 48)
    else if (97 <=? c) && (c <=? 102) then Some (c - 87)
    else if (65 <=? c) && (c <=? 70) then Some (c - 55)
    else None in
  match v with
  | Some d => if d <? radix then Some (Z.of_N d) else None
  | None => None
  end.

(** The longest prefix of digits in the radix, as (value so far, number of
    digits, rest of the string). *)
Fixpoint take_digits (radix : N) (acc : Z) (n : nat) (s : jsstring)
  : Z * nat * jsstring :=
  match s with
  | c :: s' =>
      match digit_of radix c with
      | Some d => take_digits radix (acc * Z.of_N radix + d)%Z (S n) s'
      | None => (acc, n, s)
      end
  | [] => (acc, n, [])
  end.

(** One or more digits in the radix and nothing else. *)
Definition all_digits (radix : N) (s : jsstring) : option Z :=
  match take_digits radix 0 0 s with
  | (v, S _, []) => Some v
  | _ => None
  end.

(** NonDecimalIntegerLiteral: [0b], [0o], [0x] in either case, unsigned. *)
Definition NonDecimalIntegerLiteral (s : jsstring) : option Z :=
  match s with
  | 48 :: p :: ds =>
      if (p =? 98) || (p =? 66) then all_digits 2 ds
      else if (p =? 111) || (p =? 79) then all_digits 8 ds
      else if (p =? 120) || (p =? 88) then all_digits 16 ds
      else None
  | _ => None
  end.

(** ExponentPart, optional: [e] or [E], an optional sign, digits. *)
Definition ExponentPart (s : jsstring) : option Z :=
  match s with
  | [] => Some 0%Z
  | c :: r =>
      if (c =? 101) || (c =? 69) then
        match r with
        | 43 :: ds => all_digits 10 ds
        | 45 :: ds => option_map Z.opp (all_digits 10 ds)
        | ds => all_digits 10 ds
        end
      else None
  end.

(** StrUnsignedDecimalLiteral: [Infinity], or digits with an optional
    fraction and an optional exponent; at least one digit is required. *)
Definition StrUnsignedDecimalLiteral (s : jsstring) : option number :=
  if eqb s (str "Infinity") then Some (S754_infinity false)
  else
    let '(ip, ni, r1) := take_digits 10 0 0 s in
    let '(m, nf, r2) :=
      match r1 with
      | 46 :: r => take_digits 10 ip 0 r
      | _ => (ip, O, r1)
      end in
    match ni, nf with
    | O, O => None
    | _, _ =>
        match ExponentPart r2 with
        | Some e => Some (of_decimal m (e - Z.of_nat nf))
        | None => None
        end
    end.

(** StrDecimalLiteral: an optional sign. *)
Definition StrDecimalLiteral (s : jsstring) : option number :=
  match s with
  | 43 :: r => StrUnsignedDecimalLiteral r
  | 45 :: r => option_map (SFopp) (StrUnsignedDecimalLiteral r)
  | _ => StrUnsignedDecimalLiteral s
  end.

(** [Number(s)]: white space around the literal is skipped, the empty
    literal is +0 and anything outside the grammar is NaN. *)
Definition Number (s : jsstring) : number :=
  match trim s with
  | [] => S754_zero false
  | t =>
      match NonDecimalIntegerLiteral t with
      | Some n => of_Z n
      | None =>
          match StrDecimalLiteral t with
          | Some x => x
          | None => NaN
          end
      end
  end.

End JS.

(* ================================================================== *)
(** * The Node.js host: child processes, file system, process control *)
(* ================================================================== *)

Module Node.

Import JS.

(** The options object given to [spawnSync] and [spawn]; an absent key is
    [None]. *)
Record SpawnOptions := {
  stdio : option jsstring;
  encoding : option jsstring;
  cwd : option jsstring
}.

Definition no_options : SpawnOptions :=
  {| stdio := None; encoding := None; cwd := None |}.

(** [{ ...a, ...b }]: the keys of [b] win. *)
Definition spread (a b : SpawnOptions) : SpawnOptions :=
  let pick (x y : option jsstring) := match y with Some _ => y | None => x end in
  {| stdio := pick (stdio a) (stdio b);
     encoding := pick (encoding a) (encoding b);
     cwd := pick (cwd a) (cwd b) |}.

(** What [spawnSync] returns.  [status] is [null] when the child was killed
    by a signal or never started; [error] is set when the child could not
    be started; [stdout] is a string only when the output is captured. *)
Record SpawnSyncReturns := {
  status : option Z;
  signal : option jsstring;
  stdout : option jsstring;
  error : option jsstring
}.

(** How a child started with [spawn] ends: the ['exit'] event with its
    [(code, signal)] arguments, or the ['error'] event when the child could
    not be started. *)
Inductive ChildEnd :=
| ExitEvent (code : option Z) (signal : option jsstring)
| ErrorEvent.

(** What [process.kill(process.pid, sig)] does to the calling process: the
    signal terminates it, or it is ignored or handled and the call
    returns, or the signal name is not supported and the call throws. *)
Inductive KillEffect := KillTerminates | KillReturns | KillThrows.

(** The host: the platform, the installation root
    [path.resolve(__dirname, '..')], and the outside world with the
    answers it gives to the scripts' calls. *)
Class Host := {
  OS : Type;
  platform : jsstring;
  root : jsstring;
  os_spawnSync : jsstring -> list jsstring -> SpawnOptions -> OS -> SpawnSyncReturns * OS;
  os_spawn : jsstring -> list jsstring -> SpawnOptions -> OS -> ChildEnd * OS;
  os_existsSync : jsstring -> OS -> bool;
  os_mkdirSync : jsstring -> OS -> option OS;
  os_kill : jsstring -> OS -> KillEffect
}.

(** What a script did, in order. *)
Inductive Event :=
| SpawnSync (cmd : jsstring) (args : list jsstring) (opts : SpawnOptions)
            (res : SpawnSyncReturns)
| Spawn (cmd : jsstring) (args : list jsstring) (opts : SpawnOptions)
        (res : ChildEnd)
| ExistsSync (p : jsstring) (res : bool)
| MkdirSync (p : jsstring)
| ConsoleLog (msg : jsstring)
| ConsoleError (msg : jsstring)
| ProcessKill (sig : jsstring).

(** How a computation ends: with a value, by [process.exit(code)], killed
    by a signal, or by an uncaught exception. *)
Inductive Completion (A : Type) :=
| Normal (a : A)
| Exit (code : Z)
| Signalled (sig : jsstring)
| Uncaught.

Arguments Normal {A} a.
Arguments Exit {A} code.
Arguments Signalled {A} sig.
Arguments Uncaught {A}.

(** The exit status of the Node process: a script that runs to its end
    exits with 0, an uncaught exception exits with 1, and a process killed
    by a signal has no exit status. *)
Definition exit_status {A : Type} (c : Completion A) : option Z :=
  match c with
  | Normal _ => Some 0%Z
  | Exit code => Some code
  | Signalled _ => None
  | Uncaught => Some 1%Z
  end.

Section Monad.

Context {host : Host}.

(** A computation: from the state of the outside world to a completion,
    the new state, and the events performed. *)
Definition M (A : Type) : Type := OS -> Completion A * OS * list Event.

Definition ret {A : Type} (a : A) : M A := fun w => (Normal a, w, []).

Definition bind {A B : Type} (m : M A) (f : A -> M B) : M B :=
  fun w =>
    match m w with
    | (Normal a, w1, es1) =>
        let '(c, w2, es2) := f a w1 in (c, w2, es1 ++ es2)
    | (Exit code, w1, es1) => (Exit code, w1, es1)
    | (Signalled sig, w1, es1) => (Signalled sig, w1, es1)
    | (Uncaught, w1, es1) => (Uncaught, w1, es1)
    end.

Definition completion {A : Type} (r : Completion A * OS * list Event) := fst (fst r).
Definition events {A : Type} (r : Completion A * OS * list Event) := snd r.

(** A run that comes after the events [es]. *)
Definition after {A : Type} (es : list Event) (r : Completion A * OS * list Event) :=
  let '(c, w, es2) := r in (c, w, es ++ es2).

(** [child_process.spawnSync(cmd, args, opts)]. *)
Definition spawnSync (cmd : jsstring) (args : list jsstring) (opts : SpawnOptions)
  : M SpawnSyncReturns :=
  fun w =>
    let '(res, w') := os_spawnSync cmd args opts w in
    (Normal res, w', [SpawnSync cmd args opts res]).

(** [child_process.spawn(cmd, args, opts)], up to the end of the child. *)
Definition spawn (cmd : jsstring) (args : list jsstring) (opts : SpawnOptions)
  : M ChildEnd :=
  fun w =>
    let '(res, w') := os_spawn cmd args opts w in
    (Normal res, w', [Spawn cmd args opts res]).

(** [fs.existsSync(p)]. *)
Definition existsSync (p : jsstring) : M bool :=
  fun w => let b := os_existsSync p w in (Normal b, w, [ExistsSync p b]).

(** [fs.mkdirSync(p, { recursive: true })]. *)
Definition mkdirSync (p : jsstring) : M unit :=
  fun w =>
    match os_mkdirSync p w with
    | Some w' => (Normal tt, w', [MkdirSync p])
    | None => (Uncaught, w, [MkdirSync p])
    end.

Definition console_log (msg : jsstring) : M unit :=
  fun w => (Normal tt, w, [ConsoleLog msg]).

Definition console_error (msg : jsstring) : M unit :=
  fun w => (Normal tt, w, [ConsoleError msg]).

(** [process.exit(code)] never returns. *)
Definition process_exit {A : Type} (code : Z) : M A :=
  fun w => (Exit code, w, []).

(** [process.kill(process.pid, sig)]. *)
Definition process_kill (sig : jsstring) : M unit :=
  fun w =>
    match os_kill sig w with
    | KillTerminates => (Signalled sig, w, [ProcessKill sig])
    | KillReturns => (Normal tt, w, [ProcessKill sig])
    | KillThrows => (Uncaught, w, [ProcessKill sig])
    end.

(** An exception nobody catches. *)
Definition throw {A : Type} : M A := fun w => (Uncaught, w, []).

(** [path.join(base, seg)] for a normalised [base] that does not end in a
    separator and a plain segment name, the only way the scripts call it. *)
Definition sep : jsstring :=
  if eqb platform (str "win32") then str "\" else str "/".

Definition path_join (base seg : jsstring) : jsstring := base ++ sep ++ seg.

End Monad.

Declare Scope js_scope.
Delimit Scope js_scope with js.
Notation "x <- m ;; k" := (bind m (fun x => k))
  (at level 61, m at next level, right associativity) : js_scope.
Notation "m ;; k" := (bind m (fun _ => k))
  (at level 61, right associativity) : js_scope.

End Node.

(* ================================================================== *)
(** * scripts/postinstall.js: the provisioner *)
(* ================================================================== *)

Module Postinstall.

Import JS Node.
Local Open Scope js_scope.

Section Script.

Context {host : Host}.

Definition ROOT : jsstring := root.
Definition VENDOR : jsstring := path_join ROOT (str "vendor").
Definition VENV : jsstring := path_join VENDOR (str "venv").

Definition run (cmd : jsstring) (args : list jsstring) (opts : SpawnOptions) : M Z :=
  res <- spawnSync cmd args
           (spread {| stdio := Some (str "inherit"); encoding := None; cwd := None |} opts) ;;
  match status res with
  | Some n => ret n
  | None => ret (match error res with Some _ => 1 | None => 0 end)%Z
  end.

Definition runCapture (cmd : jsstring) (args : list jsstring) : M SpawnSyncReturns :=
  spawnSync cmd args {| stdio := None; encoding := Some (str "utf8"); cwd := None |}.

Definition candidates : list jsstring :=
  if eqb platform (str "win32")
  then [str "py -3.11"; str "py -3"; str "python3"; str "python"]
  else [str "python3.12"; str "python3.11"; str "python3"; str "python"].

(** The one-line Python program given to [-c]. *)
Definition version_script : jsstring :=
  str "import sys; print(" ++ [34%N] ++ str "%d.%d" ++ [34%N]
    ++ str "%sys.version_info[:2])".

(** The test of lines 38 to 41 on a probe result: status 0, a non-empty
    output, and a version with [maj === 3 && min >= 11]. *)
Definition version_ok (out : jsstring) : bool :=
  let v := trim out in
  let nums := map Number (split 46 v) in
  let maj := nth_error nums 0 in
  let min := nth_error nums 1 in
  strict_eq_opt maj (of_Z 3) && ge_opt min (of_Z 11).

Definition accepted (res : SpawnSyncReturns) : bool :=
  match status res, stdout res with
  | Some 0%Z, Some out => truthy out && version_ok out
  | _, _ => false
  end.

(** The command line of the probe of one candidate. *)
Definition probe (candidate : jsstring) : M SpawnSyncReturns :=
  match split 32 candidate with
  | cmd :: rest => runCapture cmd (rest ++ [str "-c"; version_script])
  | [] => throw
  end.

(** The [for ... of] loop of [findPython311Plus]. *)
Fixpoint findPython311Plus_from (cs : list jsstring) : M (option jsstring) :=
  match cs with
  | [] => ret None
  | candidate :: rest =>
      res <- probe candidate ;;
      if accepted res then ret (Some candidate)
      else findPython311Plus_from rest
  end.

Definition findPython311Plus : M (option jsstring) :=
  findPython311Plus_from candidates.

Definition ensureDir (p : jsstring) : M unit :=
  ex <- existsSync p ;;
  if negb ex then mkdirSync p else ret tt.

Definition venvPython : jsstring :=
  if eqb platform (str "win32")
  then path_join (path_join VENV (str "Scripts")) (str "python.exe")
  else path_join (path_join VENV (str "bin")) (str "python").

Definition with_cwd (d : jsstring) : SpawnOptions :=
  {| stdio := None; encoding := None; cwd := Some d |}.

Definition upgrade_args : list jsstring :=
  [str "-m"; str "pip"; str "install"; str "--upgrade"; str "pip";
   str "setuptools"; str "wheel"].

Definition install_args : list jsstring :=
  [str "-m"; str "pip"; str "install"; str "."].

Definition main : M unit :=
  py <- findPython311Plus ;;
  (if negb (truthy_opt py) then
     console_error (str "[rql-py] Error: Python >= 3.11 not found.") ;;
     console_error (str "[rql-py] Please install Python 3.11+ and re-run:") ;;
     console_error (str "           npm rebuild -g rql-py") ;;
     process_exit 1
   else ret tt) ;;
  ensureDir VENDOR ;;
  (* 1) Create venv if missing *)
  ex <- existsSync VENV ;;
  (if negb ex then
     console_log (str "[rql-py] Creating virtual environment...") ;;
     status <- match option_map (split 32) py with
               | Some (cmd :: rest) =>
                   run cmd (rest ++ [str "-m"; str "venv"; VENV]) no_options
               | _ => throw
               end ;;
     if negb (status =? 0)%Z then
       console_error (str "[rql-py] Failed to create venv.") ;;
       process_exit status
     else ret tt
   else ret tt) ;;
  (* 3) Upgrade pip/setuptools/wheel *)
  console_log (str "[rql-py] Upgrading pip/setuptools/wheel...") ;;
  st <- run venvPython upgrade_args (with_cwd ROOT) ;;
  (if negb (st =? 0)%Z then
     console_error (str "[rql-py] Failed to upgrade pip toolchain.") ;;
     process_exit 1
   else ret tt) ;;
  (* 4) Install the included Python package into the venv *)
  console_log (str "[rql-py] Installing Python package into venv...") ;;
  st <- run venvPython install_args (with_cwd ROOT) ;;
  (if negb (st =? 0)%Z then
     console_error (str "[rql-py] pip install . failed.") ;;
     process_exit 1
   else ret tt) ;;
  console_log (str "[rql-py] Install complete. You can now run: rql").

End Script.

End Postinstall.

(* ================================================================== *)
(** * The launcher (the package's [bin] script) *)
(* ================================================================== *)

Module Launcher.

Import JS Node.
Local Open Scope js_scope.

Section Script.

Context {host : Host}.

Definition ROOT : jsstring := root.
Definition VENV : jsstring := path_join (path_join ROOT (str "vendor")) (str "venv").

Definition isWin : bool := eqb platform (str "win32").

Definition venvPython : jsstring :=
  if isWin
  then path_join (path_join VENV (str "Scripts")) (str "python.exe")
  else path_join (path_join VENV (str "bin")) (str "python").

Definition fail {A : Type} (msg : jsstring) : M A :=
  console_error (str "[rql-py] " ++ msg) ;;
  console_error (str "[rql-py] Try reinstalling: npm rebuild -g rql-py") ;;
  process_exit 1.

(** [code ?? 0]. *)
Definition code_or_0 (code : option Z) : Z :=
  match code with Some c => c | None => 0%Z end.

(** The listener of the child's ['exit'] event. *)
Definition on_exit (code : option Z) (signal : option jsstring) : M unit :=
  (match signal with
   | Some sig => if truthy sig then process_kill sig else ret tt
   | None => ret tt
   end) ;;
  process_exit (code_or_0 code).

(** The arguments of the child, from [process.argv]. *)
Definition args (argv : list jsstring) : list jsstring :=
  [str "-m"; str "rql"] ++ slice 2 argv.

(** The whole script, run with [process.argv = argv].  The child has no
    ['error'] listener, so a child that cannot be started is an uncaught
    exception. *)
Definition launcher (argv : list jsstring) : M unit :=
  ex <- existsSync venvPython ;;
  (if negb ex
   then fail (str "Python venv not found. Was the postinstall step blocked?")
   else ret tt) ;;
  child <- spawn venvPython (args argv)
             {| stdio := Some (str "inherit"); encoding := None; cwd := None |} ;;
  match child with
  | ExitEvent code signal => on_exit code signal
  | ErrorEvent => throw
  end.

End Script.

End Launcher.

(* ================================================================== *)
(** * Concrete hosts, for running the scripts on examples *)
(* ================================================================== *)

Module Demo.

Import JS Node.

(** A probe or step that ran and printed [out] followed by a newline. *)
Definition prints (out : string) : SpawnSyncReturns :=
  {| status := Some 0%Z; signal := None; stdout := Some (str out ++ [10%N]);
     error := None |}.

(** A child with inherited output that exited with [n]. *)
Definition exited (n : Z) : SpawnSyncReturns :=
  {| status := Some n; signal := None; stdout := None; error := None |}.

(** A command that is not installed. *)
Definition enoent : SpawnSyncReturns :=
  {| status := None; signal := None; stdout := None; error := Some (str "ENOENT") |}.

(** A child killed by a signal. *)
Definition killed_by (sig : string) : SpawnSyncReturns :=
  {| status := None; signal := Some (str sig); stdout := None; error := None |}.

(** A host whose state is the list of existing paths.  [mkdirSync] adds a
    path; the answers to [spawnSync], [spawn] and [process.kill] are
    scripted. *)
Definition scripted (plat : string)
    (sync : jsstring -> list jsstring -> SpawnSyncReturns)
    (child : ChildEnd) (kill : jsstring -> KillEffect) : Host :=
  {| OS := list jsstring;
     platform := str plat;
     root := str "/opt/rql-py";
     os_spawnSync := fun cmd args _ w => (sync cmd args, w);
     os_spawn := fun _ _ _ w => (child, w);
     os_existsSync := fun p w => existsb (eqb p) w;
     os_mkdirSync := fun p w => Some (p :: w);
     os_kill := fun sig _ => kill sig |}.

(** The state in which exactly [files] exist. *)
Definition disk (files : list string) : list jsstring := map str files.

(** Scripted answers by command name; anything else is not installed. *)
Fixpoint lookup (table : list (string * SpawnSyncReturns)) (cmd : jsstring)
  : SpawnSyncReturns :=
  match table with
  | (name, res) :: t => if eqb cmd (str name) then res else lookup t cmd
  | [] => enoent
  end.

(** What the version script prints under a Python [maj.min]: the two
    numbers in decimal, a dot between them, and a newline. *)
Fixpoint decimal_digits (fuel n : nat) (acc : jsstring) : jsstring :=
  match fuel with
  | O => acc
  | S fuel' =>
      let acc' := (48 + N.of_nat (n mod 10))%N :: acc in
      if Nat.eqb (n / 10) 0 then acc' else decimal_digits fuel' (n / 10) acc'
  end.

Definition decimal (n : nat) : jsstring := decimal_digits (S n) n [].

Definition python_prints (maj min : nat) : SpawnSyncReturns :=
  {| status := Some 0%Z; signal := None;
     stdout := Some (decimal maj ++ [46%N] ++ decimal min ++ [10%N]);
     error := None |}.

(** Answers for the calls a provisioning example never makes: a child that
    exits with 0, and signals that terminate the process. *)
Definition no_child : ChildEnd := ExitEvent (Some 0%Z) None.
Definition fatal_signals : jsstring -> KillEffect := fun _ => KillTerminates.

(** A Linux host whose four candidates report 3.9, 3.10, 3.12 and 3.13, in
    priority order. *)
Definition versions_host : Host :=
  scripted "linux"
    (fun cmd _ => lookup [("python3.12", python_prints 3 9);
                          ("python3.11", python_prints 3 10);
                          ("python3", python_prints 3 12);
                          ("python", python_prints 3 13)]%string cmd)
    no_child fatal_signals.

(** A Windows host without the [py] launcher, where [python3] exits with 9
    and [python] is a 3.11. *)
Definition windows_host : Host :=
  scripted "win32"
    (fun cmd _ => lookup [("python3", exited 9);
                          ("python", python_prints 3 11)]%string cmd)
    no_child fatal_signals.

(** A Linux host whose [python3.12] prints a banner instead of a version
    and whose [python3] is a 3.11. *)
Definition banner_host : Host :=
  scripted "linux"
    (fun cmd _ => lookup [("python3.12", prints "Python 3.12");
                          ("python3", python_prints 3 11)]%string cmd)
    no_child fatal_signals.

(** A Linux host whose [python3.12] prints its version followed by a dot
    and more text, and whose [python3] is a 3.11. *)
Definition trailing_text_host : Host :=
  scripted "linux"
    (fun cmd _ => lookup [("python3.12", prints "3.12.garbage");
                          ("python3", python_prints 3 11)]%string cmd)
    no_child fatal_signals.

(** A Linux host for provisioning: [python3.12] answers the version probe
    with [probe_res] and the [venv] command with [create]; the
    environment's interpreter answers the toolchain upgrade with [up] and
    the package install with [inst]. *)
Definition provision_host (probe_res create up inst : SpawnSyncReturns) : Host :=
  scripted "linux"
    (fun cmd args =>
       if eqb cmd (str "python3.12") then
         if eqb (hd [] args) (str "-c") then probe_res else create
       else if eqb cmd (str "/opt/rql-py/vendor/venv/bin/python") then
         if Nat.eqb (List.length args) 7 then up else inst
       else enoent)
    no_child fatal_signals.

(** The disk after an earlier provisioning attempt. *)
Definition provisioned_disk : list jsstring :=
  disk ["/opt/rql-py/vendor"; "/opt/rql-py/vendor/venv"]%string.

(** Provisioning scenarios: the interpreter is a 3.12 in all of them. *)
Definition creation_fails_host : Host :=
  provision_host (python_prints 3 12) (exited 7) (exited 0) (exited 0).

Definition upgrade_fails_host : Host :=
  provision_host (python_prints 3 12) (exited 0) (exited 1) (exited 0).

Definition install_cannot_start_host : Host :=
  provision_host (python_prints 3 12) (exited 0) (exited 0) enoent.

Definition all_good_host : Host :=
  provision_host (python_prints 3 12) (exited 0) (exited 0) (exited 0).

Definition old_python_host : Host :=
  provision_host (python_prints 3 10) (exited 0) (exited 0) (exited 0).

(** Launcher scenarios: a Linux host on which the environment exists, the
    delegated child ends as [child], and signals sent to the launcher
    itself act as [kill] says. *)
Definition launcher_host (child : ChildEnd) (kill : jsstring -> KillEffect) : Host :=
  scripted "linux" (fun _ _ => enoent) child kill.

Definition launcher_disk : list jsstring :=
  disk ["/opt/rql-py/vendor"; "/opt/rql-py/vendor/venv";
        "/opt/rql-py/vendor/venv/bin/python"]%string.

(** Node.js ignores SIGPIPE by default and reserves SIGUSR1 for its
    debugger; the other signals keep their default action. *)
Definition node_signals (sig : jsstring) : KillEffect :=
  if eqb sig (str "SIGPIPE") || eqb sig (str "SIGUSR1")
  then KillReturns else KillTerminates.

(** [process.argv] for [rql run script.rql -v]. *)
Definition example_argv : list jsstring :=
  [str "/usr/bin/node"; str "/opt/rql-py/bin/rql.js";
   str "run"; str "script.rql"; str "-v"].

(** The child exits with 3; the child is killed by SIGTERM; the child is
    killed by SIGPIPE. *)
Definition child_exits_host : Host :=
  launcher_host (ExitEvent (Some 3%Z) None) node_signals.

Definition child_sigterm_host : Host :=
  launcher_host (ExitEvent None (Some (str "SIGTERM"))) node_signals.

Definition child_sigpipe_host : Host :=
  launcher_host (ExitEvent None (Some (str "SIGPIPE"))) node_signals.

End Demo.

(* ================================================================== *)
(** * The vocabulary of the specification *)
(* ================================================================== *)

Module Spec.

Import JS Node Postinstall.

(** The binary64 value of 3, the major version the test asks for. *)
Definition three : number := Eval vm_compute in of_Z 3.

(** The probed version string "parses as major == 3 and minor >= 11": the
    probe exited with 0 and printed something, and the first two
    dot-separated fields of the trimmed output convert to the numbers
    [maj] and [min] with [maj] equal to 3 and [min] at least 11. *)
Definition Qualifies (res : SpawnSyncReturns) : Prop :=
  status res = Some 0%Z /\
  exists out maj min,
    stdout res = Some out /\ out <> [] /\
    nth_error (map Number (split 46 (trim out))) 0 = Some maj /\
    nth_error (map Number (split 46 (trim out))) 1 = Some min /\
    maj = of_Z 3 /\ ge min (of_Z 11) = true.

(** ** The specification's "two dot-separated numbers"

    The words are read on the characters of the output, apart from the
    code's [trim], [split] and [Number]: white space, one or more decimal
    digits, a dot, one or more decimal digits, white space, and nothing
    else.  The reader below returns the two numbers, or [None] when the
    output is not of that form. *)

(** A decimal digit and its value. *)
Definition decimal_digit (c : N) : option Z :=
  if (48 <=? c)%N && (c <=? 57)%N then Some (Z.of_N (c - 48)) else None.

(** After a digit of the second number: more digits, then white space up
    to the end. *)
Fixpoint minor_digits (maj min : Z) (s : jsstring) : option (Z * Z) :=
  match s with
  | [] => Some (maj, min)
  | c :: r =>
      match decimal_digit c with
      | Some d => minor_digits maj (10 * min + d)%Z r
      | None => if forallb isStrWhiteSpaceChar s then Some (maj, min) else None
      end
  end.

(** After the dot: the second number starts with a digit. *)
Definition minor_field (maj : Z) (s : jsstring) : option (Z * Z) :=
  match s with
  | c :: r =>
      match decimal_digit c with
      | Some d => minor_digits maj d r
      | None => None
      end
  | [] => None
  end.

(** After a digit of the first number: more digits, then the dot. *)
Fixpoint major_digits (maj : Z) (s : jsstring) : option (Z * Z) :=
  match s with
  | [] => None
  | c :: r =>
      match decimal_digit c with
      | Some d => major_digits (10 * maj + d)%Z r
      | None => if (c =? 46)%N then minor_field maj r else None
      end
  end.

(** The first number starts with a digit. *)
Definition major_field (s : jsstring) : option (Z * Z) :=
  match s with
  | c :: r =>
      match decimal_digit c with
      | Some d => major_digits d r
      | None => None
      end
  | [] => None
  end.

(** White space, then the two numbers. *)
Fixpoint two_numbers (s : jsstring) : option (Z * Z) :=
  match s with
  | [] => None
  | c :: r => if isStrWhiteSpaceChar c then two_numbers r else major_field s
  end.

(** The output "parses as two dot-separated numbers". *)
Definition ParsesAsVersion (out : jsstring) : Prop :=
  exists maj min, two_numbers out = Some (maj, min).

(** ** What the code reads instead

    The test of [findPython311Plus] looks at the first two dot-separated
    fields of the trimmed output and converts each with [Number].  This is
    wider than two dot-separated numbers: what follows a second dot is not
    looked at, and a field may be any numeric literal of [Number] (a sign,
    an exponent, a hexadecimal literal, [Infinity], blanks around it).
    [FieldsConvert] says that both fields are there and that neither
    converts to NaN. *)
Definition FieldsConvert (out : jsstring) : Prop :=
  exists maj min,
    nth_error (map Number (split 46 (trim out))) 0 = Some maj /\
    nth_error (map Number (split 46 (trim out))) 1 = Some min /\
    maj <> NaN /\ min <> NaN.

(** The event left by the probe of a candidate that answered [res]. *)
Definition probe_event (cr : jsstring * SpawnSyncReturns) : Event :=
  SpawnSync (hd [] (split 32 (fst cr)))
            (tl (split 32 (fst cr)) ++ [str "-c"; version_script])
            {| stdio := None; encoding := Some (str "utf8"); cwd := None |}
            (snd cr).

(** A probe that failed: the command is absent or could not be started
    (no exit status), or it exited with a status other than 0. *)
Definition ProbeFailed (res : SpawnSyncReturns) : Prop :=
  status res = None \/ exists s, status res = Some s /\ s <> 0%Z.

(** A malformed probe output, in the specification's sense: it is
    missing, or it is not two dot-separated numbers (the empty output is
    not). *)
Definition Malformed (out : option jsstring) : Prop :=
  match out with
  | None => True
  | Some o => two_numbers o = None
  end.

(** A probe output the code cannot read: it is missing or empty, or one of
    its first two fields is absent or converts to NaN. *)
Definition Unreadable (out : option jsstring) : Prop :=
  match out with
  | None => True
  | Some o => o = [] \/ ~ FieldsConvert o
  end.

(** The specification's sentence on malformed output: whenever a probe
    exits with 0 and its output is malformed, the candidate is rejected and
    the search goes on with the next candidate. *)
Definition MalformedIsRejected : Prop :=
  forall (host : Host) (cand : jsstring) (rest : list jsstring) (w : OS)
         (res : SpawnSyncReturns),
    completion (probe cand w) = Normal res ->
    status res = Some 0%Z -> Malformed (stdout res) ->
    accepted res = false /\
    findPython311Plus_from (cand :: rest) w =
    bind (probe cand) (fun _ => findPython311Plus_from rest) w.

(** An event that is the version probe of some candidate. *)
Definition IsProbe (e : Event) : Prop := exists cr, e = probe_event cr.

Section Provisioning.

Context {host : Host}.

(** The options [run] gives to [spawnSync]: live output, and the working
    directory when the caller sets one. *)
Definition inherit : SpawnOptions :=
  {| stdio := Some (str "inherit"); encoding := None; cwd := None |}.

Definition inherit_in (d : jsstring) : SpawnOptions :=
  {| stdio := Some (str "inherit"); encoding := None; cwd := Some d |}.

(** What [run] returns for a result of [spawnSync]. *)
Definition run_status (res : SpawnSyncReturns) : Z :=
  match status res with
  | Some n => n
  | None => match error res with Some _ => 1 | None => 0 end
  end.

(** A step that failed: its child exited with a non-zero status, or could
    not be started. *)
Definition StepFailed (res : SpawnSyncReturns) : Prop :=
  (exists s, status res = Some s /\ s <> 0%Z) \/
  (status res = None /\ error res <> None).

(** The three steps, as the events they leave: environment creation is
    [<interpreter> ... -m venv VENV], the toolchain upgrade and the package
    install are pip commands of the environment's interpreter run in
    [ROOT]. *)
Definition CreationStep (res : SpawnSyncReturns) (e : Event) : Prop :=
  exists cmd pre,
    e = SpawnSync cmd (pre ++ [str "-m"; str "venv"; VENV]) inherit res.

Definition UpgradeStep (res : SpawnSyncReturns) : Event :=
  SpawnSync venvPython upgrade_args (inherit_in ROOT) res.

Definition InstallStep (res : SpawnSyncReturns) : Event :=
  SpawnSync venvPython install_args (inherit_in ROOT) res.

(** The shapes a run of [main] can take. *)
Inductive EnsuredDir (p : jsstring) : list Event -> Prop :=
| dir_present : EnsuredDir p [ExistsSync p true]
| dir_made : EnsuredDir p [ExistsSync p false; MkdirSync p].

Inductive VenvReady : list Event -> Prop :=
| venv_present : VenvReady [ExistsSync VENV true]
| venv_created cmd pre res :
    run_status res = 0%Z ->
    VenvReady [ExistsSync VENV false;
               ConsoleLog (str "[rql-py] Creating virtual environment...");
               SpawnSync cmd (pre ++ [str "-m"; str "venv"; VENV]) inherit res].

Inductive MainRun : Completion unit -> list Event -> Prop :=
| run_no_python probes :
    Forall IsProbe probes ->
    MainRun (Exit 1)
      (probes ++
       [ConsoleError (str "[rql-py] Error: Python >= 3.11 not found.");
        ConsoleError (str "[rql-py] Please install Python 3.11+ and re-run:");
        ConsoleError (str "           npm rebuild -g rql-py")])
| run_mkdir_throws probes :
    Forall IsProbe probes ->
    MainRun Uncaught (probes ++ [ExistsSync VENDOR false; MkdirSync VENDOR])
| run_create_fails probes dir cmd pre res :
    Forall IsProbe probes -> EnsuredDir VENDOR dir ->
    run_status res <> 0%Z ->
    MainRun (Exit (run_status res))
      (probes ++ dir ++
       [ExistsSync VENV false;
        ConsoleLog (str "[rql-py] Creating virtual environment...");
        SpawnSync cmd (pre ++ [str "-m"; str "venv"; VENV]) inherit res;
        ConsoleError (str "[rql-py] Failed to create venv.")])
| run_upgrade_fails probes dir venv res :
    Forall IsProbe probes -> EnsuredDir VENDOR dir -> VenvReady venv ->
    run_status res <> 0%Z ->
    MainRun (Exit 1)
      (probes ++ dir ++ venv ++
       [ConsoleLog (str "[rql-py] Upgrading pip/setuptools/wheel...");
        UpgradeStep res;
        ConsoleError (str "[rql-py] Failed to upgrade pip toolchain.")])
| run_install_fails probes dir venv res1 res2 :
    Forall IsProbe probes -> EnsuredDir VENDOR dir -> VenvReady venv ->
    run_status res1 = 0%Z -> run_status res2 <> 0%Z ->
    MainRun (Exit 1)
      (probes ++ dir ++ venv ++
       [ConsoleLog (str "[rql-py] Upgrading pip/setuptools/wheel...");
        UpgradeStep res1;
        ConsoleLog (str "[rql-py] Installing Python package into venv...");
        InstallStep res2;
        ConsoleError (str "[rql-py] pip install . failed.")])
| run_complete probes dir venv res1 res2 :
    Forall IsProbe probes -> EnsuredDir VENDOR dir -> VenvReady venv ->
    run_status res1 = 0%Z -> run_status res2 = 0%Z ->
    MainRun (Normal tt)
      (probes ++ dir ++ venv ++
       [ConsoleLog (str "[rql-py] Upgrading pip/setuptools/wheel...");
        UpgradeStep res1;
        ConsoleLog (str "[rql-py] Installing Python package into venv...");
        InstallStep res2;
        ConsoleLog (str "[rql-py] Install complete. You can now run: rql")]).

(** Both later steps were executed in the run from [w]. *)
Definition BothStepsRun (w : OS) : Prop :=
  (exists r, In (UpgradeStep r) (events (main w))) /\
  (exists r, In (InstallStep r) (events (main w))).

End Provisioning.

Section Launching.

Context {host : Host}.

(** An event that starts a child process. *)
Definition StartsChild (e : Event) : Prop :=
  match e with
  | Spawn _ _ _ _ | SpawnSync _ _ _ _ => True
  | _ => False
  end.

(** The two lines [fail] prints for a missing environment. *)
Definition remediation : list Event :=
  [ConsoleError (str "[rql-py] Python venv not found. Was the postinstall step blocked?");
   ConsoleError (str "[rql-py] Try reinstalling: npm rebuild -g rql-py")].

(** C3 as the specification states it, for the run from [w] with
    [process.argv = argv]: when the environment exists and the child ends
    by signal [sig], the launcher ends by that signal. *)
Definition EndsBySameSignal (argv : list jsstring) (w : OS) : Prop :=
  forall code sig w1,
    os_existsSync Launcher.venvPython w = true ->
    os_spawn Launcher.venvPython (Launcher.args argv) inherit w
      = (ExitEvent code (Some sig), w1) ->
    sig <> [] ->
    completion (Launcher.launcher argv w) = Signalled sig.

End Launching.

End Spec.

(* ================================================================== *)
(** * Further vocabulary: runs after discovery, child processes *)
(* ================================================================== *)

Module Behaviour.

Import JS Node Postinstall Spec Demo.

(** The child processes a run started through [spawnSync], in order, as
    (command, arguments, options). *)
Definition calls (es : list Event) : list (jsstring * list jsstring * SpawnOptions) :=
  flat_map (fun e => match e with
                     | SpawnSync cmd a o _ => [(cmd, a, o)]
                     | _ => []
                     end) es.

(** A string made of white space only. *)
Definition AllWhiteSpace (s : jsstring) : Prop :=
  Forall (fun c => isStrWhiteSpaceChar c = true) s.

(** A string without a dot. *)
Definition DotFree (s : jsstring) : Prop := ~ In 46%N s.

(** A string of decimal digits, and the number it denotes when read after
    the digits of [acc]. *)
Definition Digits (s : jsstring) : Prop :=
  Forall (fun c => (48 <= c <= 57)%N) s.

Definition decimal_value (acc : Z) (s : jsstring) : Z :=
  fold_left (fun v c => (10 * v + Z.of_N (c - 48))%Z) s acc.

Section Provisioning.

Context {host : Host}.

(** The shapes of what [main] does after a discovery that returned the
    candidate whose words are [cmd :: pre]. *)
Inductive VenvReadyBy (cmd : jsstring) (pre : list jsstring) : list Event -> Prop :=
| ready_present : VenvReadyBy cmd pre [ExistsSync VENV true]
| ready_created res :
    run_status res = 0%Z ->
    VenvReadyBy cmd pre
      [ExistsSync VENV false;
       ConsoleLog (str "[rql-py] Creating virtual environment...");
       SpawnSync cmd (pre ++ [str "-m"; str "venv"; VENV]) inherit res].

Inductive ProvisionRun (cmd : jsstring) (pre : list jsstring)
  : Completion unit -> list Event -> Prop :=
| pr_mkdir_throws :
    ProvisionRun cmd pre Uncaught [ExistsSync VENDOR false; MkdirSync VENDOR]
| pr_create_fails dir res :
    EnsuredDir VENDOR dir -> run_status res <> 0%Z ->
    ProvisionRun cmd pre (Exit (run_status res))
      (dir ++
       [ExistsSync VENV false;
        ConsoleLog (str "[rql-py] Creating virtual environment...");
        SpawnSync cmd (pre ++ [str "-m"; str "venv"; VENV]) inherit res;
        ConsoleError (str "[rql-py] Failed to create venv.")])
| pr_upgrade_fails dir venv res :
    EnsuredDir VENDOR dir -> VenvReadyBy cmd pre venv ->
    run_status res <> 0%Z ->
    ProvisionRun cmd pre (Exit 1)
      (dir ++ venv ++
       [ConsoleLog (str "[rql-py] Upgrading pip/setuptools/wheel...");
        UpgradeStep res;
        ConsoleError (str "[rql-py] Failed to upgrade pip toolchain.")])
| pr_install_fails dir venv res1 res2 :
    EnsuredDir VENDOR dir -> VenvReadyBy cmd pre venv ->
    run_status res1 = 0%Z -> run_status res2 <> 0%Z ->
    ProvisionRun cmd pre (Exit 1)
      (dir ++ venv ++
       [ConsoleLog (str "[rql-py] Upgrading pip/setuptools/wheel...");
        UpgradeStep res1;
        ConsoleLog (str "[rql-py] Installing Python package into venv...");
        InstallStep res2;
        ConsoleError (str "[rql-py] pip install . failed.")])
| pr_complete dir venv res1 res2 :
    EnsuredDir VENDOR dir -> VenvReadyBy cmd pre venv ->
    run_status res1 = 0%Z -> run_status res2 = 0%Z ->
    ProvisionRun cmd pre (Normal tt)
      (dir ++ venv ++
       [ConsoleLog (str "[rql-py] Upgrading pip/setuptools/wheel...");
        UpgradeStep res1;
        ConsoleLog (str "[rql-py] Installing Python package into venv...");
        InstallStep res2;
        ConsoleLog (str "[rql-py] Install complete. You can now run: rql")]).

(** The two pip commands, as calls. *)
Definition upgrade_call : jsstring * list jsstring * SpawnOptions :=
  (venvPython, upgrade_args, inherit_in ROOT).

Definition install_call : jsstring * list jsstring * SpawnOptions :=
  (venvPython, install_args, inherit_in ROOT).

End Provisioning.

(** A host on which every provisioning child is killed by a signal. *)
Definition killed_steps_host : Host :=
  provision_host (python_prints 3 12) (killed_by "SIGKILL") (killed_by "SIGKILL")
                 (killed_by "SIGTERM").

(** A host whose file system refuses to create directories. *)
Definition readonly_host : Host :=
  {| OS := list jsstring;
     platform := str "linux";
     root := str "/opt/rql-py";
     os_spawnSync := fun cmd _ _ w =>
       (lookup [("python3", python_prints 3 11)]%string cmd, w);
     os_spawn := fun _ _ _ w => (no_child, w);
     os_existsSync := fun p w => existsb (eqb p) w;
     os_mkdirSync := fun _ _ => None;
     os_kill := fun _ _ => KillTerminates |}.

(** A Windows host with the [py] launcher, for provisioning: [py -3.11]
    reports 3.11 and every step succeeds. *)
Definition py_launcher_host : Host :=
  scripted "win32"
    (fun cmd args =>
       if eqb cmd (str "py") then
         if eqb (nth 1 args []) (str "-c") then python_prints 3 11 else exited 0
       else if eqb cmd (str "/opt/rql-py\vendor\venv\Scripts\python.exe") then exited 0
       else enoent)
    no_child fatal_signals.

(** A launcher host on which the child cannot be started. *)
Definition child_unstartable_host : Host :=
  launcher_host ErrorEvent node_signals.

End Behaviour.

(* ================================================================== *)
(** * Facts about strings, numbers and the monad *)
(* ================================================================== *)

Module Facts.

Import JS Node Spec.

Lemma eqb_refl (a : jsstring) : eqb a a = true.
Proof.
  induction a as [|x a IH]; simpl; [reflexivity|].
  now rewrite N.eqb_refl, IH.
Qed.

Lemma eqb_eq (a b : jsstring) : eqb a b = true <-> a = b.
Proof.
  split; [|intros ->; apply eqb_refl].
  revert b; induction a as [|x a IH]; intros [|y b]; simpl; try discriminate; auto.
  intros H; apply andb_true_iff in H as [H1 H2].
  apply N.eqb_eq in H1; apply IH in H2; congruence.
Qed.

Lemma split_not_nil (sep : N) (s : jsstring) : split sep s <> [].
Proof.
  destruct s as [|c s]; simpl; [discriminate|].
  destruct (N.eqb c sep); [discriminate|].
  destruct (split sep s); discriminate.
Qed.

(** A finite positive value is [===] to exactly itself. *)
Lemma SFeqb_finite (x : number) (m : positive) (e : Z) :
  SFeqb x (S754_finite false m e) = true <-> x = S754_finite false m e.
Proof.
  split; [|intros ->; unfold SFeqb, SFcompare;
           rewrite Z.compare_refl, Pos.compare_cont_refl; reflexivity].
  unfold SFeqb, SFcompare.
  destruct x as [s|s|  |s m' e']; try discriminate.
  - destruct s; discriminate.
  - destruct s; [discriminate|].
    destruct (Z.compare_spec e' e) as [He| |]; try discriminate.
    fold (Pos.compare m' m).
    destruct (Pos.compare_spec m' m) as [Hm| |]; try discriminate.
    intros _; congruence.
Qed.

Lemma of_Z_3 : of_Z 3 = three.
Proof. vm_compute; reflexivity. Qed.

(** [x === 3] holds for exactly one binary64 value. *)
Lemma strict_eq_3 (x : number) : strict_eq x (of_Z 3) = true <-> x = of_Z 3.
Proof. rewrite of_Z_3; unfold strict_eq, three; apply SFeqb_finite. Qed.

(** NaN is not [>= n]. *)
Lemma ge_NaN (b : number) : ge NaN b = false.
Proof. unfold ge, SFleb, NaN; destruct b; reflexivity. Qed.

Section MonadLaws.

Context {host : Host}.

Lemma bind_ret_l {A B : Type} (a : A) (f : A -> M B) (w : OS) :
  bind (ret a) f w = f a w.
Proof. unfold bind, ret; simpl. destruct (f a w) as [[c w'] es]; reflexivity. Qed.

Lemma bind_Normal {A B : Type} (m : M A) (f : A -> M B) (w w1 : OS) a es1 :
  m w = (Normal a, w1, es1) ->
  bind m f w = (let '(c, w2, es2) := f a w1 in (c, w2, es1 ++ es2)).
Proof. intros H; unfold bind; rewrite H; reflexivity. Qed.

Lemma bind_run {A B : Type} (m : M A) (f : A -> M B) (w : OS) :
  bind m f w =
  match m w with
  | (Normal a, w1, es1) => after es1 (f a w1)
  | (Exit code, w1, es1) => (Exit code, w1, es1)
  | (Signalled sig, w1, es1) => (Signalled sig, w1, es1)
  | (Uncaught, w1, es1) => (Uncaught, w1, es1)
  end.
Proof. reflexivity. Qed.

Lemma bind_assoc {A B C : Type} (m : M A) (f : A -> M B) (g : B -> M C) (w : OS) :
  bind (bind m f) g w = bind m (fun x => bind (f x) g) w.
Proof.
  unfold bind. destruct (m w) as [[[a| | |] w1] es1]; try reflexivity.
  destruct (f a w1) as [[[b| | |] w2] es2]; try reflexivity.
  destruct (g b w2) as [[c w3] es3]. now rewrite app_assoc.
Qed.

Lemma bind_process_exit {A B : Type} (code : Z) (f : A -> M B) (w : OS) :
  bind (process_exit code) f w = (Exit code, w, []).
Proof. reflexivity. Qed.

Lemma existsSync_run (p : jsstring) (w : OS) :
  existsSync p w = (Normal (os_existsSync p w), w, [ExistsSync p (os_existsSync p w)]).
Proof. reflexivity. Qed.

Lemma console_log_run (msg : jsstring) (w : OS) :
  console_log msg w = (Normal tt, w, [ConsoleLog msg]).
Proof. reflexivity. Qed.

Lemma console_error_run (msg : jsstring) (w : OS) :
  console_error msg w = (Normal tt, w, [ConsoleError msg]).
Proof. reflexivity. Qed.

Lemma completion_after {A : Type} es (r : Completion A * OS * list Event) :
  completion (after es r) = completion r.
Proof. destruct r as [[c w] es2]; reflexivity. Qed.

Lemma events_after {A : Type} es (r : Completion A * OS * list Event) :
  events (after es r) = es ++ events r.
Proof. destruct r as [[c w] es2]; reflexivity. Qed.

End MonadLaws.

(** Stepping through a computation, one bind at a time. *)
Ltac tidy :=
  cbv beta iota; rewrite ?bind_assoc, ?bind_process_exit, ?completion_after, ?events_after.

Ltac bind_with E := rewrite bind_run, E; tidy.

Ltac bind_prim :=
  rewrite bind_run;
  first [ rewrite existsSync_run | rewrite console_log_run | rewrite console_error_run ];
  tidy.

Ltac bind_ret :=
  repeat match goal with
         | |- context [@bind ?h ?A ?B (@ret _ _ ?a) ?f ?w] =>
             rewrite (@bind_ret_l h A B a f w)
         end;
  tidy.

Ltac branch := cbn [negb]; cbv iota; tidy.

End Facts.

(* ================================================================== *)
(** * Interpreter discovery *)
(* ================================================================== *)

Module Discovery.

Import JS Node Postinstall Spec Facts.
Local Open Scope js_scope.

Lemma accepted_iff (res : SpawnSyncReturns) : accepted res = true <-> Qualifies res.
Proof.
  unfold accepted, Qualifies, version_ok; cbv zeta.
  destruct (status res) as [[| |]|]; try (split; [discriminate | intros [H _]; discriminate]).
  destruct (stdout res) as [out|].
  2:{ split; [discriminate | intros (_ & o & a & b & H & _); discriminate]. }
  set (nums := map Number (split 46 (trim out))).
  split.
  - intros H. apply andb_true_iff in H as [Ht H].
    apply andb_true_iff in H as [Hmaj Hmin].
    split; [reflexivity|].
    destruct (nth_error nums 0) as [maj|] eqn:E0; [|discriminate].
    destruct (nth_error nums 1) as [min|] eqn:E1;
      [|simpl in Hmin; rewrite ge_NaN in Hmin; discriminate].
    exists out, maj, min. simpl in Hmaj, Hmin.
    apply strict_eq_3 in Hmaj.
    repeat split; auto.
    intros ->; discriminate.
  - intros (_ & o & maj & min & Ho & Hne & E0 & E1 & Hmaj & Hmin).
    injection Ho as <-. subst nums.
    rewrite E0, E1; simpl.
    apply andb_true_iff; split.
    + destruct out; [contradiction|reflexivity].
    + apply andb_true_iff; split; [apply strict_eq_3; assumption | assumption].
Qed.

Lemma not_accepted_iff (res : SpawnSyncReturns) :
  accepted res = false <-> ~ Qualifies res.
Proof.
  rewrite <- accepted_iff. destruct (accepted res); split; congruence.
Qed.

Section WithHost.

Context {host : Host}.

(** A probe is one [spawnSync] call and always returns. *)
Lemma probe_runs (cand : jsstring) (w : OS) :
  exists res w1, probe cand w = (Normal res, w1, [probe_event (cand, res)]).
Proof.
  unfold probe, probe_event, runCapture, spawnSync; simpl.
  destruct (split 32 cand) as [|cmd rest] eqn:E; [now apply split_not_nil in E|].
  simpl.
  destruct (os_spawnSync _ _ _ w) as [res w1].
  exists res, w1; reflexivity.
Qed.

(** The loop, one candidate at a time. *)
Lemma find_cons_accepted cand rest w res w1 es :
  probe cand w = (Normal res, w1, es) -> accepted res = true ->
  findPython311Plus_from (cand :: rest) w = (Normal (Some cand), w1, es).
Proof.
  intros Hp Ha. simpl. erewrite bind_Normal by exact Hp. rewrite Ha.
  unfold ret. now rewrite app_nil_r.
Qed.

Lemma find_cons_rejected cand rest w res w1 es :
  probe cand w = (Normal res, w1, es) -> accepted res = false ->
  findPython311Plus_from (cand :: rest) w =
  (let '(c, w2, es2) := findPython311Plus_from rest w1 in (c, w2, es ++ es2)).
Proof.
  intros Hp Ha. simpl. erewrite bind_Normal by exact Hp. rewrite Ha. reflexivity.
Qed.

(** The search over any candidate list: the candidates before the one
    returned were probed in order and did not qualify, the one returned
    was probed next and qualifies, and nothing after it was probed; with
    no qualifying candidate every one was probed and [null] is returned. *)
Lemma find_from_first (cs : list jsstring) (w : OS) :
  let '(c, _, es) := findPython311Plus_from cs w in
  exists rejected : list (jsstring * SpawnSyncReturns),
    Forall (fun cr => ~ Qualifies (snd cr)) rejected /\
    match c with
    | Normal (Some cand) =>
        exists res rest,
          cs = map fst rejected ++ cand :: rest /\ Qualifies res /\
          es = map probe_event (rejected ++ [(cand, res)])
    | Normal None => cs = map fst rejected /\ es = map probe_event rejected
    | _ => False
    end.
Proof.
  revert w; induction cs as [|cand rest IH]; intros w.
  - simpl. exists []. repeat split; constructor.
  - destruct (probe_runs cand w) as (res & w1 & Hp).
    destruct (accepted res) eqn:Ha.
    + rewrite (@find_cons_accepted cand rest w res w1 _ Hp Ha).
      exists []. split; [constructor|].
      exists res, rest.
      split; [reflexivity | split; [now apply accepted_iff | reflexivity]].
    + rewrite (@find_cons_rejected cand rest w res w1 _ Hp Ha).
      specialize (IH w1).
      destruct (findPython311Plus_from rest w1) as [[c w2] es2].
      destruct IH as (rej & Hrej & Hc).
      exists ((cand, res) :: rej). split.
      * constructor; [now apply not_accepted_iff | assumption].
      * destruct c as [[c'|]| | |]; try contradiction.
        -- destruct Hc as (res' & rest' & -> & Hq & ->).
           exists res', rest'.
           split; [reflexivity | split; [assumption | reflexivity]].
        -- destruct Hc as [-> ->]. split; reflexivity.
Qed.

(** Discovery always returns to its caller. *)
Lemma find_from_returns (cs : list jsstring) (w : OS) :
  exists r, completion (findPython311Plus_from cs w) = Normal r.
Proof.
  pose proof (find_from_first cs w) as H.
  destruct (findPython311Plus_from cs w) as [[c w'] es].
  destruct H as (rej & _ & H). unfold completion; simpl.
  destruct c as [r| | |]; try contradiction. now exists r.
Qed.

End WithHost.

End Discovery.

(* ================================================================== *)
(** * Discovery: the claims *)
(* ================================================================== *)

Module DiscoveryClaims.

Import JS Node Postinstall Spec Facts Discovery Demo.
Local Open Scope js_scope.

(** On the two platforms the candidate lists are the fixed ones of the
    script. *)
Lemma candidates_linux :
  candidates (host := versions_host) =
  [str "python3.12"; str "python3.11"; str "python3"; str "python"].
Proof. reflexivity. Qed.

Lemma candidates_win32 :
  candidates (host := windows_host) =
  [str "py -3.11"; str "py -3"; str "python3"; str "python"].
Proof. reflexivity. Qed.

(** C1.  [findPython311Plus] walks the platform's candidate list in
    priority order and returns the first candidate whose probe qualifies
    (major equal to 3, minor at least 11): every candidate before it was
    probed and did not qualify, and none after it was probed.  When no
    candidate qualifies, all were probed and the result is [null].  With
    the versions 3.9, 3.10, 3.12 (and 3.13) in priority order the third
    candidate, the 3.12 one, is returned after exactly three probes. *)
Theorem findPython311Plus_first_qualifying :
  (forall (host : Host) (w : OS),
     let '(c, _, es) := findPython311Plus w in
     exists rejected : list (jsstring * SpawnSyncReturns),
       Forall (fun cr => ~ Qualifies (snd cr)) rejected /\
       match c with
       | Normal (Some cand) =>
           exists res rest,
             candidates = map fst rejected ++ cand :: rest /\ Qualifies res /\
             es = map probe_event (rejected ++ [(cand, res)])
       | Normal None =>
           candidates = map fst rejected /\ es = map probe_event rejected
       | _ => False
       end)
  /\ (forall host : Host,
        candidates =
        if eqb platform (str "win32")
        then [str "py -3.11"; str "py -3"; str "python3"; str "python"]
        else [str "python3.12"; str "python3.11"; str "python3"; str "python"])
  /\ (let r := findPython311Plus (host := versions_host) (disk []) in
      completion r = Normal (Some (str "python3")) /\
      events r = map probe_event [(str "python3.12", python_prints 3 9);
                                  (str "python3.11", python_prints 3 10);
                                  (str "python3", python_prints 3 12)]).
Proof.
  split; [|split].
  - intros host w. apply find_from_first.
  - intros host. reflexivity.
  - split; vm_compute; reflexivity.
Qed.

(** C7.  A candidate whose probe fails (no exit status because the binary
    is absent or cannot start, or a non-zero exit status) is skipped: the
    search goes on with the next candidate in the state the probe left.
    Discovery always returns to its caller, whatever the probes answer, and
    everything it does is a version probe through [spawnSync]: it makes no
    file system call. *)
Theorem probe_failure_is_skipped :
  (forall (host : Host) (cand : jsstring) (rest : list jsstring) (w : OS)
          (res : SpawnSyncReturns),
     completion (probe cand w) = Normal res -> ProbeFailed res ->
     findPython311Plus_from (cand :: rest) w =
     (probe cand ;; findPython311Plus_from rest) w)
  /\ (forall (host : Host) (cs : list jsstring) (w : OS),
        exists r, completion (findPython311Plus_from cs w) = Normal r)
  /\ (forall (host : Host) (cs : list jsstring) (w : OS),
        Forall IsProbe (events (findPython311Plus_from cs w))).
Proof.
  split; [|split].
  - intros host cand rest w res Hc Hf.
    assert (Ha : accepted res = false).
    { unfold accepted. destruct Hf as [-> | (s & -> & Hs)]; [reflexivity|].
      destruct s; try reflexivity. contradiction. }
    simpl. unfold bind.
    destruct (probe cand w) as [[c w1] es1].
    unfold completion in Hc; simpl in Hc; subst c.
    rewrite Ha. reflexivity.
  - intros host cs w. apply find_from_returns.
  - intros host cs w.
    pose proof (find_from_first cs w) as H.
    destruct (findPython311Plus_from cs w) as [[c w'] es].
    destruct H as (rej & _ & H). unfold events; simpl.
    assert (Hall : forall l, Forall IsProbe (map probe_event l)).
    { intros l. apply Forall_forall. intros e He.
      apply in_map_iff in He as (cr & <- & _). now exists cr. }
    destruct c as [[cand|]| | |]; try contradiction.
    + destruct H as (res & rest & _ & _ & ->). apply Hall.
    + destruct H as [_ ->]. apply Hall.
Qed.

(** On the Windows host the [py] launcher is absent and [python3] exits
    with 9: the three failed probes are skipped and [python] is found. *)
Lemma probe_failure_is_skipped_witness :
  ProbeFailed enoent /\
  findPython311Plus_from (host := windows_host)
    [str "py -3.11"; str "py -3"; str "python3"; str "python"] (disk []) =
  (probe (host := windows_host) (str "py -3.11") ;;
   findPython311Plus_from [str "py -3"; str "python3"; str "python"]) (disk []) /\
  completion (findPython311Plus (host := windows_host) (disk [])) = Normal (Some (str "python")).
Proof.
  assert (Hf : ProbeFailed enoent) by (left; reflexivity).
  split; [exact Hf|]. split.
  - exact (proj1 probe_failure_is_skipped windows_host (str "py -3.11")
             [str "py -3"; str "python3"; str "python"] (disk [])
             enoent eq_refl Hf).
  - vm_compute; reflexivity.
Defined.

(** X8.  The version script's own output, for every Python [maj.min] with
    [maj < 16] and [min < 256]: accepted exactly when [maj = 3] and
    [11 <= min]. *)
Lemma canonical_output_accepted (maj min : nat) :
  maj < 16 -> min < 256 ->
  accepted (python_prints maj min) = Nat.eqb maj 3 && Nat.leb 11 min.
Proof.
  intros Hmaj Hmin.
  assert (H : forallb (fun a => forallb (fun b =>
                Bool.eqb (accepted (python_prints a b)) (Nat.eqb a 3 && Nat.leb 11 b))
                (seq 0 256)) (seq 0 16) = true) by (vm_compute; reflexivity).
  rewrite forallb_forall in H.
  specialize (H maj). rewrite in_seq in H. specialize (H ltac:(lia)).
  rewrite forallb_forall in H.
  specialize (H min). rewrite in_seq in H. specialize (H ltac:(lia)).
  now apply Bool.eqb_prop in H.
Qed.

End DiscoveryClaims.

(* ================================================================== *)
(** * The provisioner's runs *)
(* ================================================================== *)

Module Provisioning.

Import JS Node Postinstall Spec Facts Discovery.
Local Open Scope js_scope.

Section WithHost.

Context {host : Host}.

Lemma run_status_failed (res : SpawnSyncReturns) :
  run_status res <> 0%Z <-> StepFailed res.
Proof.
  unfold run_status, StepFailed.
  destruct (status res) as [s|].
  - split.
    + intros H; left; now exists s.
    + intros [(s' & E & H) | [E _]]; [congruence | discriminate].
  - destruct (error res) as [e|].
    + split; [intros _; right; split; [reflexivity | discriminate] | intros _; discriminate].
    + split; [intros H; now contradiction H |].
      intros [(s' & E & _) | [_ H]]; [discriminate | now contradiction H].
Qed.

(** A step whose child was killed by a signal has neither a status nor
    an error: [run] returns 0 for it. *)
Remark run_status_killed (sig : string) : run_status (Demo.killed_by sig) = 0%Z.
Proof. reflexivity. Qed.

(** [run] is one [spawnSync] call with live output, and returns. *)
Lemma run_runs cmd args opts (w : OS) :
  exists res w1,
    run cmd args opts w =
    (Normal (run_status res), w1, [SpawnSync cmd args (spread inherit opts) res]).
Proof.
  unfold run, bind, spawnSync.
  destruct (os_spawnSync cmd args _ w) as [res w1].
  exists res, w1. unfold run_status.
  destruct (status res); [reflexivity|]. destruct (error res); reflexivity.
Qed.

Lemma ensureDir_runs p (w : OS) :
  (exists w1 es, ensureDir p w = (Normal tt, w1, es) /\ EnsuredDir p es) \/
  (exists w1, ensureDir p w = (Uncaught, w1, [ExistsSync p false; MkdirSync p])).
Proof.
  unfold ensureDir, bind, existsSync, mkdirSync, ret.
  destruct (os_existsSync p w); simpl.
  - left. exists w, [ExistsSync p true]. split; [reflexivity | constructor].
  - destruct (os_mkdirSync p w) as [w1|].
    + left. exists w1, [ExistsSync p false; MkdirSync p]. split; [reflexivity | constructor].
    + right. now exists w.
Qed.

Lemma probes_are_probes (l : list (jsstring * SpawnSyncReturns)) :
  Forall IsProbe (map probe_event l).
Proof.
  apply Forall_forall. intros e He.
  apply in_map_iff in He as (cr & <- & _). now exists cr.
Qed.

(** Discovery, as [main] sees it: a value and a list of probes. *)
Lemma findPython311Plus_runs (w : OS) :
  exists py w1 probes,
    findPython311Plus w = (Normal py, w1, probes) /\ Forall IsProbe probes.
Proof.
  pose proof (find_from_first candidates w) as H. unfold findPython311Plus.
  destruct (findPython311Plus_from candidates w) as [[c w1] es].
  destruct H as (rej & _ & H).
  destruct c as [[cand|]| | |]; try contradiction.
  - destruct H as (res & rest & _ & _ & ->).
    exists (Some cand), w1. eexists; split; [reflexivity | apply probes_are_probes].
  - destruct H as [_ ->].
    exists None, w1. eexists; split; [reflexivity | apply probes_are_probes].
Qed.

(** Every run of [main] has one of the six shapes of [MainRun]. *)
Lemma main_run (w : OS) : MainRun (completion (main w)) (events (main w)).
Proof.
  destruct (findPython311Plus_runs w) as (py & w1 & probes & Ef & Hp).
  unfold main. bind_with Ef.
  destruct (truthy_opt py) eqn:Ht; branch.
  2:{ (* no interpreter *)
    do 3 bind_prim. apply run_no_python; assumption. }
  destruct py as [py|]; [|discriminate].
  destruct (split 32 py) as [|cmd rest] eqn:Es; [now apply split_not_nil in Es|].
  bind_ret.
  destruct (ensureDir_runs VENDOR w1) as [(w2 & dir & Ed & Hd) | (w2 & Ed)].
  2:{ bind_with Ed. apply run_mkdir_throws; assumption. }
  bind_with Ed. bind_prim.
  assert (Htail : forall (venv : list Event) (w3 : OS), VenvReady venv ->
    let r := (console_log (str "[rql-py] Upgrading pip/setuptools/wheel...") ;;
              st <- run venvPython upgrade_args (with_cwd ROOT) ;;
              (if negb (st =? 0)%Z then
                 console_error (str "[rql-py] Failed to upgrade pip toolchain.") ;;
                 process_exit 1
               else ret tt) ;;
              console_log (str "[rql-py] Installing Python package into venv...") ;;
              st <- run venvPython install_args (with_cwd ROOT) ;;
              (if negb (st =? 0)%Z then
                 console_error (str "[rql-py] pip install . failed.") ;;
                 process_exit 1
               else ret tt) ;;
              console_log (str "[rql-py] Install complete. You can now run: rql")) w3 in
    MainRun (completion r) (probes ++ dir ++ venv ++ events r)).
  { intros venv w3 Hv r; subst r.
    bind_prim.
    destruct (run_runs venvPython upgrade_args (with_cwd ROOT) w3) as (res1 & w4 & E1).
    bind_with E1.
    destruct (Z.eqb_spec (run_status res1) 0) as [Z1|N1]; branch.
    2:{ bind_prim. now apply run_upgrade_fails. }
    bind_ret. bind_prim.
    destruct (run_runs venvPython install_args (with_cwd ROOT) w4) as (res2 & w5 & E2).
    bind_with E2.
    destruct (Z.eqb_spec (run_status res2) 0) as [Z2|N2]; branch.
    2:{ bind_prim. now apply run_install_fails. }
    bind_ret.
    now apply run_complete. }
  destruct (os_existsSync VENV w2) eqn:Ev; branch.
  - (* the environment exists *)
    bind_ret. apply (Htail [ExistsSync VENV true] w2). constructor.
  - (* create it *)
    bind_prim. simpl option_map. rewrite Es. tidy.
    destruct (run_runs cmd (rest ++ [str "-m"; str "venv"; VENV]) no_options w2)
      as (res & w3 & Ec).
    bind_with Ec.
    destruct (Z.eqb_spec (run_status res) 0) as [Z0|N0]; branch.
    + bind_ret.
      apply (Htail [ExistsSync VENV false;
                    ConsoleLog (str "[rql-py] Creating virtual environment...");
                    SpawnSync cmd (rest ++ [str "-m"; str "venv"; VENV]) inherit res] w3).
      now constructor.
    + bind_prim. now apply run_create_fails.
Qed.

(** Without an interpreter, [main] prints its three lines and exits. *)
Lemma main_no_interpreter (w : OS) :
  completion (findPython311Plus w) = Normal None ->
  completion (main w) = Exit 1 /\
  events (main w) =
  events (findPython311Plus w) ++
  [ConsoleError (str "[rql-py] Error: Python >= 3.11 not found.");
   ConsoleError (str "[rql-py] Please install Python 3.11+ and re-run:");
   ConsoleError (str "           npm rebuild -g rql-py")].
Proof.
  destruct (findPython311Plus w) as [[c w1] probes] eqn:Ef.
  unfold completion at 1, events at 2; simpl. intros ->.
  unfold main. bind_with Ef. cbn [truthy_opt]. branch.
  do 3 bind_prim. split; reflexivity.
Qed.

(** ** Telling the events of a run apart *)

Lemma VENDOR_not_VENV : VENDOR <> VENV.
Proof.
  unfold VENV, path_join. intros H.
  rewrite <- (app_nil_r VENDOR) in H at 1.
  apply app_inv_head in H.
  apply (f_equal (@List.length N)) in H. rewrite length_app in H.
  change (List.length (str "venv")) with 4 in H. simpl in H. lia.
Qed.

Lemma upgrade_not_install : upgrade_args <> install_args.
Proof. intros H. apply (f_equal (@List.length jsstring)) in H. discriminate. Qed.

(** A probe captures its output; the three steps inherit theirs. *)
Lemma probe_not_run e cmd args o res :
  IsProbe e -> e = SpawnSync cmd args o res -> stdio o = None.
Proof.
  intros [cr ->] H. unfold probe_event in H. injection H as _ _ <- _. reflexivity.
Qed.

Lemma probes_capture probes cmd args o res :
  Forall IsProbe probes -> In (SpawnSync cmd args o res) probes -> stdio o = None.
Proof.
  intros Hp Hin. rewrite Forall_forall in Hp.
  exact (probe_not_run (Hp _ Hin) eq_refl).
Qed.

End WithHost.

End Provisioning.

(* ================================================================== *)
(** * Provisioning: the claims *)
(* ================================================================== *)

Module ProvisioningClaims.

Import JS Node Postinstall Spec Facts Discovery Provisioning Demo.
Local Open Scope js_scope.

(** Case analysis on where an event sits in a run. *)
Ltac event_cases :=
  repeat match goal with
         | H : EnsuredDir _ _ |- _ => destruct H
         | H : VenvReady _ |- _ => destruct H
         | H : CreationStep _ ?e |- _ => is_var e; destruct H as (? & ? & ->)
         | H : In _ (_ ++ _) |- _ => apply in_app_or in H; destruct H as [H|H]
         | H : In _ (_ :: _) |- _ => destruct H as [H|H]
         | H : In _ [] |- _ => destruct H
         end.

Ltac not_a_probe :=
  match goal with
  | Hp : Forall IsProbe ?ps, H : In _ ?ps |- _ =>
      unfold UpgradeStep, InstallStep in H;
      apply (@probes_capture _ _ _ _ _ Hp) in H;
      unfold inherit, inherit_in in H; simpl in H; discriminate H
  end.

Ltac event_clash :=
  match goal with
  | H : @eq Event _ _ |- _ =>
      unfold UpgradeStep, InstallStep, inherit, inherit_in in H;
      solve [ discriminate H
            | injection H; intros;
              solve [ discriminate
                    | exfalso; now apply upgrade_not_install
                    | exfalso; apply upgrade_not_install; congruence
                    | exfalso; now apply VENDOR_not_VENV
                    | exfalso; apply VENDOR_not_VENV; congruence ] ]
  end.

(** C4.  When the environment-creation step runs and its child exits with
    a non-zero status [s], the provisioner stops right after it (the only
    thing it still does is print the error message) and exits with that same
    status [s]; neither the toolchain upgrade nor the package install is
    attempted. *)
Theorem creation_failure_status_propagates
    (host : Host) (w : OS) (res : SpawnSyncReturns) (e : Event) (s : Z) :
  In e (events (main w)) -> CreationStep res e ->
  status res = Some s -> s <> 0%Z ->
  completion (main w) = Exit s /\
  exit_status (completion (main w)) = Some s /\
  (exists before,
     events (main w) =
     before ++ [e; ConsoleError (str "[rql-py] Failed to create venv.")]) /\
  (forall r, ~ In (UpgradeStep r) (events (main w))) /\
  (forall r, ~ In (InstallStep r) (events (main w))).
Proof.
  intros Hin Hstep Hs Hne.
  assert (Hrs : run_status res = s) by (unfold run_status; now rewrite Hs).
  pose proof (main_run w) as R.
  remember (completion (main w)) as c eqn:Ec.
  remember (events (main w)) as es eqn:Ees.
  clear Ec Ees.
  destruct R; event_cases; try not_a_probe; try event_clash.
  all: injection Hin as -> Hargs ->; rewrite Hargs, Hrs.
  all: split; [reflexivity | split; [reflexivity | split; [| split]]].
  all: try (intros r Hr; event_cases; try not_a_probe; event_clash).
  - exists (probes ++ [ExistsSync VENDOR true] ++
            [ExistsSync VENV false;
             ConsoleLog (str "[rql-py] Creating virtual environment...")]).
    rewrite <- !app_assoc. reflexivity.
  - exists (probes ++ [ExistsSync VENDOR false; MkdirSync VENDOR] ++
            [ExistsSync VENV false;
             ConsoleLog (str "[rql-py] Creating virtual environment...")]).
    rewrite <- !app_assoc. reflexivity.
Qed.

Ltac find_event := vm_compute; repeat (first [left; reflexivity | right]).

(** With a 3.12 interpreter, no environment on disk and a [venv] command
    that exits with 7, the provisioner exits with 7. *)
Lemma creation_failure_status_propagates_witness :
  In (SpawnSync (str "python3.12")
        [str "-m"; str "venv"; VENV (host := creation_fails_host)]
        inherit (exited 7))
     (events (main (host := creation_fails_host) (disk []))) /\
  completion (main (host := creation_fails_host) (disk [])) = Exit 7 /\
  exit_status (completion (main (host := creation_fails_host) (disk []))) = Some 7%Z.
Proof.
  assert (Hin : In (SpawnSync (str "python3.12")
                      [str "-m"; str "venv"; VENV (host := creation_fails_host)]
                      inherit (exited 7))
                   (events (main (host := creation_fails_host) (disk []))))
    by find_event.
  assert (Hc : CreationStep (host := creation_fails_host) (exited 7)
                 (SpawnSync (str "python3.12")
                    [str "-m"; str "venv"; VENV (host := creation_fails_host)]
                    inherit (exited 7)))
    by (exists (str "python3.12"), []; reflexivity).
  assert (Hne : 7%Z <> 0%Z) by discriminate.
  split; [exact Hin|].
  pose proof (@creation_failure_status_propagates creation_fails_host (disk [])
                (exited 7) _ 7%Z Hin Hc eq_refl Hne) as (H1 & H2 & _).
  split; assumption.
Defined.

(** C5, as amended.  In a run that finds the environment directory present
    (which the provisioner checks only after it found an interpreter), no
    environment-creation child is started and the toolchain-upgrade step
    is still executed; then either that step failed and the run stopped
    with status 1, or the package-install step was executed too. *)
Theorem existing_environment_skips_creation (host : Host) (w : OS) :
  In (ExistsSync VENV true) (events (main w)) ->
  (forall res e, In e (events (main w)) -> ~ CreationStep res e) /\
  (exists r, In (UpgradeStep r) (events (main w)) /\
     ((StepFailed r /\ completion (main w) = Exit 1) \/
      (exists r2, In (InstallStep r2) (events (main w))))).
Proof.
  intros Hin.
  pose proof (main_run w) as R.
  remember (completion (main w)) as c eqn:Ec.
  remember (events (main w)) as es eqn:Ees.
  clear Ec Ees.
  assert (Hv : forall ps, Forall IsProbe ps -> ~ In (ExistsSync VENV true) ps).
  { intros ps Hp H. rewrite Forall_forall in Hp.
    destruct (Hp _ H) as [cr Hcr]. discriminate Hcr. }
  destruct R; event_cases;
    try (exfalso; eapply Hv; eassumption); try event_clash.
  all: split;
    [ intros res0 e He Hc; event_cases; try not_a_probe; event_clash | ].
  - exists res. split; [apply in_or_app; right; simpl; tauto|].
    left. split; [now apply run_status_failed | reflexivity].
  - exists res. split; [apply in_or_app; right; simpl; tauto|].
    left. split; [now apply run_status_failed | reflexivity].
  - exists res1. split; [apply in_or_app; right; simpl; tauto|].
    right. exists res2. apply in_or_app; right; simpl; tauto.
  - exists res1. split; [apply in_or_app; right; simpl; tauto|].
    right. exists res2. apply in_or_app; right; simpl; tauto.
  - exists res1. split; [apply in_or_app; right; simpl; tauto|].
    right. exists res2. apply in_or_app; right; simpl; tauto.
  - exists res1. split; [apply in_or_app; right; simpl; tauto|].
    right. exists res2. apply in_or_app; right; simpl; tauto.
Qed.

(** After an earlier provisioning, with every step succeeding: the
    environment is found, nothing is created, and both later steps run. *)
Lemma existing_environment_skips_creation_witness :
  In (ExistsSync (VENV (host := all_good_host)) true)
     (events (main (host := all_good_host) provisioned_disk)) /\
  (forall res e,
     In e (events (main (host := all_good_host) provisioned_disk)) ->
     ~ CreationStep (host := all_good_host) res e) /\
  (exists r,
     In (UpgradeStep (host := all_good_host) r)
        (events (main (host := all_good_host) provisioned_disk)) /\
     ((StepFailed r /\
       completion (main (host := all_good_host) provisioned_disk) = Exit 1) \/
      (exists r2, In (InstallStep (host := all_good_host) r2)
                     (events (main (host := all_good_host) provisioned_disk))))).
Proof.
  assert (Hin : In (ExistsSync (VENV (host := all_good_host)) true)
                   (events (main (host := all_good_host) provisioned_disk)))
    by find_event.
  split; [exact Hin|].
  exact (@existing_environment_skips_creation all_good_host provisioned_disk Hin).
Defined.

(** C5 as stated fails.  The environment directory exists and [python3.12]
    is a compatible interpreter, but the toolchain upgrade exits with 1:
    the run finds the directory present, executes the upgrade step, and
    stops before the install step. *)
Lemma existing_environment_install_not_reached :
  completion (findPython311Plus (host := upgrade_fails_host) provisioned_disk)
    = Normal (Some (str "python3.12")) /\
  In (ExistsSync (VENV (host := upgrade_fails_host)) true)
     (events (main (host := upgrade_fails_host) provisioned_disk)) /\
  ~ BothStepsRun (host := upgrade_fails_host) provisioned_disk.
Proof.
  split; [vm_compute; reflexivity|]. split; [find_event|].
  intros [_ [r H]]. vm_compute in H.
  repeat (destruct H as [H|H]; [discriminate H|]). exact H.
Qed.

(** C9.  A toolchain-upgrade step that fails (its child exits non-zero or
    cannot start) makes the provisioner exit with status 1 without
    attempting the install step; a package-install step that fails makes
    it exit with status 1 without reporting completion; when discovery
    finds no interpreter it exits with status 1 having done nothing but
    the probes and three lines of error output; and a run whose install
    step did not fail runs to the end of the script, so the process exits
    with status 0.  Status 0 is reached in no other way. *)
Theorem provisioning_exit_statuses :
  (forall (host : Host) (w : OS) (r : SpawnSyncReturns),
     In (UpgradeStep r) (events (main w)) -> StepFailed r ->
     exit_status (completion (main w)) = Some 1%Z /\
     (forall r2, ~ In (InstallStep r2) (events (main w))))
  /\ (forall (host : Host) (w : OS) (r : SpawnSyncReturns),
        In (InstallStep r) (events (main w)) -> StepFailed r ->
        exit_status (completion (main w)) = Some 1%Z /\
        ~ In (ConsoleLog (str "[rql-py] Install complete. You can now run: rql"))
             (events (main w)))
  /\ (forall (host : Host) (w : OS),
        completion (findPython311Plus w) = Normal None ->
        exit_status (completion (main w)) = Some 1%Z /\
        events (main w) =
        events (findPython311Plus w) ++
        [ConsoleError (str "[rql-py] Error: Python >= 3.11 not found.");
         ConsoleError (str "[rql-py] Please install Python 3.11+ and re-run:");
         ConsoleError (str "           npm rebuild -g rql-py")])
  /\ (forall (host : Host) (w : OS) (r : SpawnSyncReturns),
        In (InstallStep r) (events (main w)) -> ~ StepFailed r ->
        completion (main w) = Normal tt /\
        exit_status (completion (main w)) = Some 0%Z)
  /\ (forall (host : Host) (w : OS),
        exit_status (completion (main w)) = Some 0%Z ->
        exists r1 r2,
          In (UpgradeStep r1) (events (main w)) /\ ~ StepFailed r1 /\
          In (InstallStep r2) (events (main w)) /\ ~ StepFailed r2).
Proof.
  assert (Hlog : forall ps m, Forall IsProbe ps -> ~ In (ConsoleLog m) ps).
  { intros ps m Hp H. rewrite Forall_forall in Hp.
    destruct (Hp _ H) as [cr Hcr]. discriminate Hcr. }
  split; [|split; [|split; [|split]]].
  - intros host w r Hin Hf. apply run_status_failed in Hf.
    pose proof (main_run w) as R.
    remember (completion (main w)) as c eqn:Ec.
    remember (events (main w)) as es eqn:Ees.
    clear Ec Ees.
    destruct R; event_cases; try not_a_probe; try event_clash.
    all: try (injection Hin as <-).
    all: try contradiction.
    all: split; [reflexivity|].
    all: intros r2 Hr2; event_cases; try not_a_probe; event_clash.
  - intros host w r Hin Hf. apply run_status_failed in Hf.
    pose proof (main_run w) as R.
    remember (completion (main w)) as c eqn:Ec.
    remember (events (main w)) as es eqn:Ees.
    clear Ec Ees.
    destruct R; event_cases; try not_a_probe; try event_clash.
    all: try (injection Hin as <-).
    all: try contradiction.
    all: split; [reflexivity|].
    all: intros Hl; event_cases;
      try (exfalso; eapply Hlog; eassumption); try discriminate Hl.
  - intros host w Hnone.
    destruct (main_no_interpreter w Hnone) as [-> ->]. split; reflexivity.
  - intros host w r Hin Hnf.
    assert (Hz : run_status r = 0%Z).
    { destruct (Z.eq_dec (run_status r) 0) as [E|N]; [exact E|].
      exfalso. apply Hnf. now apply run_status_failed. }
    pose proof (main_run w) as R.
    remember (completion (main w)) as c eqn:Ec.
    remember (events (main w)) as es eqn:Ees.
    clear Ec Ees.
    destruct R; event_cases; try not_a_probe; try event_clash.
    all: try (injection Hin as <-).
    all: try contradiction.
    all: split; reflexivity.
  - intros host w H0.
    pose proof (main_run w) as R.
    remember (completion (main w)) as c eqn:Ec.
    remember (events (main w)) as es eqn:Ees.
    clear Ec Ees.
    destruct R; simpl in H0; try discriminate H0.
    + injection H0 as H0. contradiction.
    + exists res1, res2.
      repeat split.
      * apply in_or_app; right. apply in_or_app; right.
        apply in_or_app; right. simpl; tauto.
      * intros Hf. apply run_status_failed in Hf. contradiction.
      * apply in_or_app; right. apply in_or_app; right.
        apply in_or_app; right. simpl; tauto.
      * intros Hf. apply run_status_failed in Hf. contradiction.
Qed.

(** The four outcomes on concrete hosts: the upgrade exits with 1, the
    install cannot be started, the only interpreter is a 3.10, and
    everything succeeds. *)
Lemma provisioning_exit_statuses_witness :
  exit_status (completion (main (host := upgrade_fails_host) provisioned_disk)) = Some 1%Z /\
  exit_status (completion (main (host := install_cannot_start_host) provisioned_disk)) = Some 1%Z /\
  exit_status (completion (main (host := old_python_host) (disk []))) = Some 1%Z /\
  exit_status (completion (main (host := all_good_host) (disk []))) = Some 0%Z /\
  (exists r1 r2,
     In (UpgradeStep (host := all_good_host) r1)
        (events (main (host := all_good_host) (disk []))) /\
     ~ StepFailed r1 /\
     In (InstallStep (host := all_good_host) r2)
        (events (main (host := all_good_host) (disk []))) /\
     ~ StepFailed r2).
Proof.
  destruct provisioning_exit_statuses as (Hup & Hinst & Hnone & Hok & Honly).
  split; [|split; [|split; [|split]]].
  - refine (proj1 (Hup upgrade_fails_host provisioned_disk (exited 1) _ _)).
    + find_event.
    + left. exists 1%Z. split; [reflexivity | discriminate].
  - refine (proj1 (Hinst install_cannot_start_host provisioned_disk enoent _ _)).
    + find_event.
    + right. split; [reflexivity | discriminate].
  - refine (proj1 (Hnone old_python_host (disk []) _)).
    vm_compute; reflexivity.
  - refine (proj2 (Hok all_good_host (disk []) (exited 0) _ _)).
    + find_event.
    + intros [(s & Hs & Hne) | [Hs _]]; [|discriminate Hs].
      injection Hs as <-. now apply Hne.
  - refine (Honly all_good_host (disk []) _).
    vm_compute; reflexivity.
Defined.

End ProvisioningClaims.

(* ================================================================== *)
(** * The launcher's runs *)
(* ================================================================== *)

Module Launching.

Import JS Node Launcher Spec Facts.
Local Open Scope js_scope.

Section WithHost.

Context {host : Host}.

Lemma spawn_run cmd a o (w : OS) :
  spawn cmd a o w =
  (Normal (fst (os_spawn cmd a o w)), snd (os_spawn cmd a o w),
   [Spawn cmd a o (fst (os_spawn cmd a o w))]).
Proof. unfold spawn. destruct (os_spawn cmd a o w); reflexivity. Qed.

(** Without the environment's interpreter the launcher fails at once. *)
Lemma launcher_without_env argv (w : OS) :
  os_existsSync venvPython w = false ->
  launcher argv w = (Exit 1, w, ExistsSync venvPython false :: remediation).
Proof.
  intros Hex. unfold launcher, fail.
  rewrite bind_run, existsSync_run, Hex. tidy. branch.
  rewrite bind_run, console_error_run. tidy.
  rewrite bind_run, console_error_run. tidy.
  reflexivity.
Qed.

(** With it, the launcher starts the child and hands its end to the
    ['exit'] listener. *)
Lemma launcher_with_env argv (w : OS) :
  os_existsSync venvPython w = true ->
  launcher argv w =
  after [ExistsSync venvPython true;
         Spawn venvPython (args argv) inherit
               (fst (os_spawn venvPython (args argv) inherit w))]
    (match fst (os_spawn venvPython (args argv) inherit w) with
     | ExitEvent code signal =>
         on_exit code signal (snd (os_spawn venvPython (args argv) inherit w))
     | ErrorEvent => throw (snd (os_spawn venvPython (args argv) inherit w))
     end).
Proof.
  intros Hex. unfold launcher.
  rewrite bind_run, existsSync_run, Hex. cbv beta iota. branch.
  rewrite bind_ret_l.
  rewrite bind_run. fold inherit. rewrite spawn_run. cbv beta iota.
  destruct (fst (os_spawn venvPython (args argv) inherit w)) as [code signal|];
    [destruct (on_exit code signal _) as [[c w2] es] | ]; reflexivity.
Qed.

(** The listener on a child that ended without a signal. *)
Lemma on_exit_code code (w : OS) :
  on_exit code None w = (Exit (code_or_0 code), w, []).
Proof. reflexivity. Qed.

(** The listener on a child that was killed by [sig]. *)
Lemma on_exit_signal code sig (w : OS) :
  sig <> [] ->
  on_exit code (Some sig) w =
  match os_kill sig w with
  | KillTerminates => (Signalled sig, w, [ProcessKill sig])
  | KillReturns => (Exit (code_or_0 code), w, [ProcessKill sig])
  | KillThrows => (Uncaught, w, [ProcessKill sig])
  end.
Proof.
  intros Hne. destruct sig as [|c sig]; [contradiction|].
  unfold on_exit, bind, process_kill, process_exit.
  change (truthy (c :: sig)) with true. cbv beta iota.
  destruct (os_kill (c :: sig) w); reflexivity.
Qed.

End WithHost.

End Launching.

(* ================================================================== *)
(** * The launcher: the claims *)
(* ================================================================== *)

Module LauncherClaims.

Import JS Node Launcher Spec Facts Launching Demo.
Local Open Scope js_scope.

(** The interpreter of the environment sits at a fixed place under the
    installation root. *)
Lemma venvPython_path (host : Host) :
  venvPython =
  if eqb platform (str "win32")
  then root ++ str "\vendor\venv\Scripts\python.exe"
  else root ++ str "/vendor/venv/bin/python".
Proof.
  unfold venvPython, isWin, VENV, ROOT, path_join, sep.
  destruct (eqb platform (str "win32")); rewrite <- !app_assoc; reflexivity.
Qed.

(** C2.  When the launcher starts the child, which it does as soon as the
    environment's interpreter exists, the child's argument vector is
    ["-m"; "rql"] followed by the launcher's own arguments (those after
    the node binary and the script path in [process.argv]), unchanged and
    in order; it is the only child process of the run. *)
Theorem launcher_forwards_arguments
    (host : Host) (node script : jsstring) (own : list jsstring) (w : OS) :
  os_existsSync venvPython w = true ->
  exists child rest,
    events (launcher (node :: script :: own) w) =
    ExistsSync venvPython true ::
    Spawn venvPython (str "-m" :: str "rql" :: own) inherit child :: rest /\
    Forall (fun e => ~ StartsChild e) rest.
Proof.
  intros Hex. rewrite (launcher_with_env _ _ Hex), events_after.
  change (args (node :: script :: own)) with (str "-m" :: str "rql" :: own).
  set (r := os_spawn venvPython (str "-m" :: str "rql" :: own) inherit w).
  exists (fst r).
  destruct (fst r) as [code signal|].
  - destruct signal as [[|c sig]|].
    + exists []. split; [reflexivity | constructor].
    + rewrite on_exit_signal by discriminate.
      exists [ProcessKill (c :: sig)]. split.
      * destruct (os_kill (c :: sig) (snd r)); reflexivity.
      * constructor; [intros H; exact H | constructor].
    + exists []. split; [reflexivity | constructor].
  - exists []. split; [reflexivity | constructor].
Qed.

(** [rql run script.rql -v] is delegated as [-m rql run script.rql -v]. *)
Lemma launcher_forwards_arguments_witness :
  @os_existsSync child_exits_host (venvPython (host := child_exits_host)) launcher_disk = true /\
  exists child rest,
    events (launcher (host := child_exits_host) example_argv launcher_disk) =
    ExistsSync (venvPython (host := child_exits_host)) true ::
    Spawn (venvPython (host := child_exits_host))
          [str "-m"; str "rql"; str "run"; str "script.rql"; str "-v"]
          inherit child :: rest /\
    Forall (fun e => ~ StartsChild e) rest.
Proof.
  assert (Hex : @os_existsSync child_exits_host (venvPython (host := child_exits_host))
                  launcher_disk = true)
    by (vm_compute; reflexivity).
  split; [exact Hex|].
  exact (@launcher_forwards_arguments child_exits_host
           (str "/usr/bin/node") (str "/opt/rql-py/bin/rql.js")
           [str "run"; str "script.rql"; str "-v"] launcher_disk Hex).
Defined.

(** The whole run of that example. *)
Example launcher_example_run :
  launcher (host := child_exits_host) example_argv launcher_disk =
  (Exit 3, launcher_disk,
   [ExistsSync (str "/opt/rql-py/vendor/venv/bin/python") true;
    Spawn (str "/opt/rql-py/vendor/venv/bin/python")
          [str "-m"; str "rql"; str "run"; str "script.rql"; str "-v"]
          inherit (ExitEvent (Some 3%Z) None)]).
Proof. vm_compute; reflexivity. Qed.

(** C6.  When the environment's interpreter does not exist, the launcher
    prints the two remediation lines, exits with status 1 and starts no
    child process. *)
Theorem launcher_missing_environment (host : Host) (argv : list jsstring) (w : OS) :
  os_existsSync venvPython w = false ->
  completion (launcher argv w) = Exit 1 /\
  exit_status (completion (launcher argv w)) = Some 1%Z /\
  events (launcher argv w) = ExistsSync venvPython false :: remediation /\
  Forall (fun e => ~ StartsChild e) (events (launcher argv w)) /\
  venvPython =
  (if eqb platform (str "win32")
   then root ++ str "\vendor\venv\Scripts\python.exe"
   else root ++ str "/vendor/venv/bin/python").
Proof.
  intros Hex. rewrite (launcher_without_env _ _ Hex).
  repeat split; try apply venvPython_path.
  unfold events, remediation; simpl.
  repeat constructor; intros H; exact H.
Qed.

(** On an empty disk the launcher exits with 1. *)
Lemma launcher_missing_environment_witness :
  @os_existsSync child_exits_host (venvPython (host := child_exits_host)) (disk []) = false /\
  completion (launcher (host := child_exits_host) example_argv (disk [])) = Exit 1.
Proof.
  assert (Hex : @os_existsSync child_exits_host (venvPython (host := child_exits_host)) (disk []) = false)
    by reflexivity.
  split; [exact Hex|].
  exact (proj1 (@launcher_missing_environment child_exits_host example_argv (disk []) Hex)).
Defined.

(** C8.  When the child ends without a signal, the launcher calls
    [process.exit] with the child's exit code, or with 0 when the code is
    [null], and sends no signal. *)
Theorem launcher_relays_exit_code
    (host : Host) (argv : list jsstring) (w w1 : OS) (code : option Z) :
  os_existsSync venvPython w = true ->
  os_spawn venvPython (args argv) inherit w = (ExitEvent code None, w1) ->
  completion (launcher argv w) = Exit (match code with Some c => c | None => 0%Z end) /\
  exit_status (completion (launcher argv w))
    = Some (match code with Some c => c | None => 0%Z end) /\
  forall sig, ~ In (ProcessKill sig) (events (launcher argv w)).
Proof.
  intros Hex Hsp. rewrite (launcher_with_env _ _ Hex), Hsp.
  cbn [fst snd]. rewrite on_exit_code.
  split; [reflexivity | split; [reflexivity |]].
  intros sig H. unfold events, after in H; simpl in H.
  destruct H as [H|[H|[]]]; discriminate H.
Qed.

(** A child that exits with 3 makes the launcher exit with 3. *)
Lemma launcher_relays_exit_code_witness :
  completion (launcher (host := child_exits_host) example_argv launcher_disk) = Exit 3.
Proof.
  exact (proj1 (@launcher_relays_exit_code child_exits_host example_argv
                  launcher_disk launcher_disk (Some 3%Z) eq_refl eq_refl)).
Defined.

(** C3, as amended.  When the child was killed by a signal, the one thing
    the launcher does next is to send that same signal to itself.  If the
    signal terminates the launcher, the launcher ends by it and has no
    exit status; if the signal is ignored or handled, the launcher goes on
    to [process.exit(code ?? 0)]; if the signal cannot be sent, the
    exception is not caught. *)
Theorem launcher_redelivers_signal
    (host : Host) (argv : list jsstring) (w w1 : OS) (code : option Z)
    (sig : jsstring) :
  os_existsSync venvPython w = true ->
  os_spawn venvPython (args argv) inherit w = (ExitEvent code (Some sig), w1) ->
  sig <> [] ->
  events (launcher argv w) =
    [ExistsSync venvPython true;
     Spawn venvPython (args argv) inherit (ExitEvent code (Some sig));
     ProcessKill sig] /\
  match os_kill sig w1 with
  | KillTerminates =>
      completion (launcher argv w) = Signalled sig /\
      exit_status (completion (launcher argv w)) = None
  | KillReturns =>
      completion (launcher argv w)
        = Exit (match code with Some c => c | None => 0%Z end)
  | KillThrows => completion (launcher argv w) = Uncaught
  end.
Proof.
  intros Hex Hsp Hne. rewrite (launcher_with_env _ _ Hex), Hsp.
  cbn [fst snd]. rewrite (on_exit_signal _ _ Hne).
  destruct (os_kill sig w1); (split; [reflexivity|]); try split; reflexivity.
Qed.

(** A child killed by SIGTERM: the launcher dies by SIGTERM. *)
Lemma launcher_redelivers_signal_witness :
  completion (launcher (host := child_sigterm_host) example_argv launcher_disk)
    = Signalled (str "SIGTERM") /\
  In (ProcessKill (str "SIGTERM"))
     (events (launcher (host := child_sigterm_host) example_argv launcher_disk)).
Proof.
  assert (Hne : str "SIGTERM" <> []) by discriminate.
  destruct (@launcher_redelivers_signal child_sigterm_host example_argv
              launcher_disk launcher_disk None (str "SIGTERM")
              eq_refl eq_refl Hne) as (Hev & Hterm).
  split.
  - exact (proj1 Hterm).
  - rewrite Hev. right; right; left; reflexivity.
Defined.

(** C3 as stated fails.  Node.js ignores SIGPIPE: a child killed by SIGPIPE
    makes the launcher send SIGPIPE to itself, survive, and exit with the
    numeric code 0. *)
Lemma launcher_survives_sigpipe :
  completion (launcher (host := child_sigpipe_host) example_argv launcher_disk) = Exit 0 /\
  ~ EndsBySameSignal (host := child_sigpipe_host) example_argv launcher_disk.
Proof.
  assert (H0 : completion (launcher (host := child_sigpipe_host) example_argv launcher_disk)
               = Exit 0) by (vm_compute; reflexivity).
  split; [exact H0|].
  intros H.
  specialize (H None (str "SIGPIPE") launcher_disk eq_refl eq_refl ltac:(discriminate)).
  rewrite H0 in H. discriminate H.
Qed.

End LauncherClaims.

(* ================================================================== *)
(** * The provisioner after discovery *)
(* ================================================================== *)

Module ProvisionRuns.

Import JS Node Postinstall Spec Behaviour Facts Discovery Provisioning.
Local Open Scope js_scope.

Section WithHost.

Context {host : Host}.

(** Discovery returned nothing usable: three lines and [process.exit(1)]. *)
Lemma main_not_found (w w1 : OS) py probes :
  findPython311Plus w = (Normal py, w1, probes) -> truthy_opt py = false ->
  completion (main w) = Exit 1 /\
  events (main w) =
  probes ++
  [ConsoleError (str "[rql-py] Error: Python >= 3.11 not found.");
   ConsoleError (str "[rql-py] Please install Python 3.11+ and re-run:");
   ConsoleError (str "           npm rebuild -g rql-py")].
Proof.
  intros Ef Ht. unfold main. bind_with Ef. rewrite Ht. branch.
  do 3 bind_prim. split; reflexivity.
Qed.

(** Discovery returned the candidate [p], whose words are [cmd :: pre]:
    what follows the probes has one of the five shapes of [ProvisionRun]. *)
Lemma main_found (w w1 : OS) p probes cmd pre :
  findPython311Plus w = (Normal (Some p), w1, probes) ->
  p <> [] -> split 32 p = cmd :: pre ->
  exists tail,
    events (main w) = probes ++ tail /\
    ProvisionRun cmd pre (completion (main w)) tail.
Proof.
  intros Ef Hp Es. unfold main. bind_with Ef.
  assert (Ht : truthy_opt (Some p) = true) by (destruct p; [contradiction | reflexivity]).
  rewrite Ht. branch. bind_ret.
  destruct (ensureDir_runs VENDOR w1) as [(w2 & dir & Ed & Hd) | (w2 & Ed)].
  2:{ bind_with Ed. eexists; split; [reflexivity | constructor]. }
  bind_with Ed. bind_prim.
  assert (Htail : forall (venv : list Event) (w3 : OS), VenvReadyBy cmd pre venv ->
    let r := (console_log (str "[rql-py] Upgrading pip/setuptools/wheel...") ;;
              st <- run venvPython upgrade_args (with_cwd ROOT) ;;
              (if negb (st =? 0)%Z then
                 console_error (str "[rql-py] Failed to upgrade pip toolchain.") ;;
                 process_exit 1
               else ret tt) ;;
              console_log (str "[rql-py] Installing Python package into venv...") ;;
              st <- run venvPython install_args (with_cwd ROOT) ;;
              (if negb (st =? 0)%Z then
                 console_error (str "[rql-py] pip install . failed.") ;;
                 process_exit 1
               else ret tt) ;;
              console_log (str "[rql-py] Install complete. You can now run: rql")) w3 in
    exists tail,
      probes ++ dir ++ venv ++ events r = probes ++ tail /\
      ProvisionRun cmd pre (completion r) tail).
  { intros venv w3 Hv r; subst r.
    bind_prim.
    destruct (run_runs venvPython upgrade_args (with_cwd ROOT) w3) as (res1 & w4 & E1).
    bind_with E1.
    destruct (Z.eqb_spec (run_status res1) 0) as [Z1|N1]; branch.
    2:{ bind_prim. eexists; split; [reflexivity | now apply pr_upgrade_fails]. }
    bind_ret. bind_prim.
    destruct (run_runs venvPython install_args (with_cwd ROOT) w4) as (res2 & w5 & E2).
    bind_with E2.
    destruct (Z.eqb_spec (run_status res2) 0) as [Z2|N2]; branch.
    2:{ bind_prim. eexists; split; [reflexivity | now apply pr_install_fails]. }
    bind_ret.
    eexists; split; [reflexivity | now apply pr_complete]. }
  destruct (os_existsSync VENV w2) eqn:Ev; branch.
  - bind_ret. apply (Htail [ExistsSync VENV true] w2). constructor.
  - bind_prim. simpl option_map. rewrite Es. tidy.
    destruct (run_runs cmd (pre ++ [str "-m"; str "venv"; VENV]) no_options w2)
      as (res & w3 & Ec).
    bind_with Ec.
    destruct (Z.eqb_spec (run_status res) 0) as [Z0|N0]; branch.
    + bind_ret.
      apply (Htail [ExistsSync VENV false;
                    ConsoleLog (str "[rql-py] Creating virtual environment...");
                    SpawnSync cmd (pre ++ [str "-m"; str "venv"; VENV]) inherit res] w3).
      now constructor.
    + bind_prim. eexists; split; [reflexivity | now apply pr_create_fails].
Qed.

End WithHost.

End ProvisionRuns.

(* ================================================================== *)
(** * Provisioning: further properties *)
(* ================================================================== *)

Module ProvisioningMore.

Import JS Node Postinstall Spec Behaviour Demo Facts Discovery Provisioning
       ProvisionRuns ProvisioningClaims.
Local Open Scope js_scope.

Ltac tail_cases :=
  repeat match goal with
         | H : EnsuredDir _ _ |- _ => destruct H
         | H : VenvReady _ |- _ => destruct H
         | H : VenvReadyBy _ _ _ |- _ => destruct H
         | H : CreationStep _ ?e |- _ => is_var e; destruct H as (? & ? & ->)
         | H : In _ (_ ++ _) |- _ => apply in_app_or in H; destruct H as [H|H]
         | H : In _ (_ :: _) |- _ => destruct H as [H|H]
         | H : In _ [] |- _ => destruct H
         end.

Lemma calls_app (a b : list Event) : calls (a ++ b) = calls a ++ calls b.
Proof. unfold calls. apply flat_map_app. Qed.

Lemma calls_probes (l : list (jsstring * SpawnSyncReturns)) :
  List.length (calls (map probe_event l)) = List.length l.
Proof. induction l as [|cr l IH]; simpl; [reflexivity | now rewrite IH]. Qed.

Lemma candidates_length (host : Host) : List.length candidates = 4.
Proof. unfold candidates. destruct (eqb platform (str "win32")); reflexivity. Qed.

Lemma candidates_not_empty (host : Host) (p : jsstring) : In p candidates -> p <> [].
Proof.
  unfold candidates. destruct (eqb platform (str "win32")); simpl;
    intros [<-|[<-|[<-|[<-|[]]]]]; discriminate.
Qed.

(** What [main] gets from discovery: a candidate of the list or nothing,
    after at most four probes. *)
Lemma discovery_summary (host : Host) (w : OS) :
  exists py w1 probes,
    findPython311Plus w = (Normal py, w1, probes) /\
    Forall IsProbe probes /\
    List.length (calls probes) <= 4 /\
    (forall p, py = Some p -> In p candidates).
Proof.
  pose proof (find_from_first candidates w) as H. unfold findPython311Plus.
  destruct (findPython311Plus_from candidates w) as [[c w1] es].
  destruct H as (rej & _ & H).
  destruct c as [[cand|]| | |]; try contradiction.
  - destruct H as (res & rest & Hc & _ & ->).
    exists (Some cand), w1. eexists. split; [reflexivity|].
    split; [apply probes_are_probes|]. split.
    + rewrite calls_probes, length_app. simpl.
      pose proof (candidates_length host) as L. rewrite Hc in L.
      rewrite length_app, length_map in L. simpl in L. lia.
    + intros p [= <-]. rewrite Hc. apply in_or_app. right. left. reflexivity.
  - destruct H as [Hc ->].
    exists None, w1. eexists. split; [reflexivity|].
    split; [apply probes_are_probes|]. split.
    + rewrite calls_probes.
      pose proof (candidates_length host) as L. rewrite Hc in L.
      rewrite length_map in L. lia.
    + intros p H; discriminate H.
Qed.

(** A probe sets no working directory. *)
Lemma probes_no_cwd probes cmd a o res :
  Forall IsProbe probes -> In (SpawnSync cmd a o res) probes -> cwd o = None.
Proof.
  intros Hp Hin. rewrite Forall_forall in Hp.
  destruct (Hp _ Hin) as [cr Hcr]. unfold probe_event in Hcr.
  injection Hcr as _ _ -> _. reflexivity.
Qed.

(** X1.  A provisioning child that was killed by a signal has neither an
    exit status nor a spawn error, and [run] returns 0 for it: the
    provisioner goes on as after a success.  After such a creation child
    the upgrade step is executed, after such an upgrade child the install
    step is executed, and after such an install child the run completes
    with exit status 0. *)
Theorem killed_step_counts_as_success (host : Host) (w : OS) (res : SpawnSyncReturns) :
  status res = None -> error res = None ->
  (forall e, In e (events (main w)) -> CreationStep res e ->
     exists r, In (UpgradeStep r) (events (main w))) /\
  (In (UpgradeStep res) (events (main w)) ->
     exists r, In (InstallStep r) (events (main w))) /\
  (In (InstallStep res) (events (main w)) ->
     completion (main w) = Normal tt /\
     exit_status (completion (main w)) = Some 0%Z).
Proof.
  intros Hs He.
  assert (Hz : run_status res = 0%Z) by (unfold run_status; now rewrite Hs, He).
  pose proof (main_run w) as R.
  remember (completion (main w)) as c eqn:Ec.
  remember (events (main w)) as es eqn:Ees.
  clear Ec Ees.
  split; [|split].
  - intros e Hin Hc.
    destruct R; event_cases; try not_a_probe; try event_clash.
    all: try (injection Hin as -> _ ->; contradiction).
    all: eexists; apply in_or_app; right; apply in_or_app; right;
      apply in_or_app; right; right; left; reflexivity.
  - intros Hin.
    destruct R; event_cases; try not_a_probe; try event_clash.
    all: try (injection Hin as ->; contradiction).
    all: eexists; apply in_or_app; right; apply in_or_app; right;
      apply in_or_app; right; do 3 right; left; reflexivity.
  - intros Hin.
    destruct R; event_cases; try not_a_probe; try event_clash.
    all: try (injection Hin as ->; contradiction).
    all: split; reflexivity.
Qed.

(** With every child killed by a signal the provisioner reports
    success. *)
Lemma killed_step_counts_as_success_witness :
  In (UpgradeStep (host := killed_steps_host) (killed_by "SIGKILL"))
     (events (main (host := killed_steps_host) (disk []))) /\
  (exists r, In (InstallStep (host := killed_steps_host) r)
                (events (main (host := killed_steps_host) (disk [])))) /\
  completion (main (host := killed_steps_host) (disk [])) = Normal tt.
Proof.
  assert (Hin : In (UpgradeStep (host := killed_steps_host) (killed_by "SIGKILL"))
                   (events (main (host := killed_steps_host) (disk [])))) by find_event.
  assert (Hin2 : In (InstallStep (host := killed_steps_host) (killed_by "SIGTERM"))
                    (events (main (host := killed_steps_host) (disk [])))) by find_event.
  split; [exact Hin|]. split.
  - exact (proj1 (proj2 (@killed_step_counts_as_success killed_steps_host (disk [])
                           (killed_by "SIGKILL") eq_refl eq_refl)) Hin).
  - exact (proj1 (proj2 (proj2 (@killed_step_counts_as_success killed_steps_host
                                  (disk []) (killed_by "SIGTERM") eq_refl eq_refl))
                   Hin2)).
Defined.

(** X2.  On a file system where a directory exists once [mkdirSync] has
    created it, a second [ensureDir] of the same path only checks: after a
    first call that did not throw, the second call performs the existence
    test, finds the directory, and creates nothing. *)
Theorem ensureDir_twice (host : Host) (p : jsstring) (w : OS) :
  (forall w0 w1, os_mkdirSync p w0 = Some w1 -> os_existsSync p w1 = true) ->
  completion (ensureDir p w) = Normal tt ->
  completion ((ensureDir p ;; ensureDir p) w) = Normal tt /\
  events ((ensureDir p ;; ensureDir p) w) = events (ensureDir p w) ++ [ExistsSync p true].
Proof.
  intros Hfs Hok.
  rewrite bind_run.
  unfold ensureDir in *. rewrite bind_run, existsSync_run in *. cbv beta iota in *.
  destruct (os_existsSync p w) eqn:Ex; cbn [negb] in *; cbv iota in *.
  - unfold ret, after. cbv beta iota.
    rewrite bind_run, existsSync_run, Ex. cbv beta iota. cbn [negb]. cbv iota.
    split; reflexivity.
  - unfold mkdirSync in *. destruct (os_mkdirSync p w) as [w1|] eqn:Em.
    + unfold after. cbv beta iota.
      rewrite bind_run, existsSync_run, (Hfs _ _ Em). cbv beta iota. cbn [negb]. cbv iota.
      split; reflexivity.
    + discriminate Hok.
Qed.

Lemma ensureDir_twice_witness :
  events ((ensureDir (host := all_good_host) (str "/opt/rql-py/vendor") ;;
           ensureDir (str "/opt/rql-py/vendor")) (disk [])) =
  [ExistsSync (str "/opt/rql-py/vendor") false; MkdirSync (str "/opt/rql-py/vendor");
   ExistsSync (str "/opt/rql-py/vendor") true].
Proof.
  assert (Hfs : forall w0 w1 : @OS all_good_host,
             @os_mkdirSync all_good_host (str "/opt/rql-py/vendor") w0 = Some w1 ->
             @os_existsSync all_good_host (str "/opt/rql-py/vendor") w1 = true).
  { intros w0 w1 H. injection H as <-. reflexivity. }
  exact (proj2 (@ensureDir_twice all_good_host (str "/opt/rql-py/vendor") (disk [])
                  Hfs eq_refl)).
Defined.

(** X3.  The environment is created by the very candidate that discovery
    returned: the creation command is the candidate's first word, its
    arguments are the candidate's other words followed by [-m venv VENV],
    and the candidate is one of the platform's list. *)
Theorem creation_uses_discovered_interpreter
    (host : Host) (w : OS) (res : SpawnSyncReturns) (e : Event) :
  In e (events (main w)) -> CreationStep res e ->
  exists p,
    completion (findPython311Plus w) = Normal (Some p) /\
    In p candidates /\
    e = SpawnSync (hd [] (split 32 p))
                  (tl (split 32 p) ++ [str "-m"; str "venv"; VENV]) inherit res.
Proof.
  intros Hin Hc.
  destruct (discovery_summary host w) as (py & w1 & probes & Ef & Hp & _ & Hcand).
  destruct (truthy_opt py) eqn:Ht.
  - destruct py as [p|]; [|discriminate Ht].
    assert (Hne : p <> []) by (intros ->; discriminate Ht).
    destruct (split 32 p) as [|cmd pre] eqn:Es; [now apply split_not_nil in Es|].
    destruct (@main_found _ w w1 p probes cmd pre Ef Hne Es) as (tail & Hev & R).
    rewrite Hev in Hin. rewrite Ef. exists p.
    split; [reflexivity|]. split; [now apply Hcand|].
    remember (completion (main w)) as c eqn:Ec. clear Ec Hev.
    destruct R; tail_cases; try not_a_probe; try event_clash.
    all: injection Hin as <- Hargs <-; rewrite <- Hargs, Es; reflexivity.
  - destruct (@main_not_found _ w w1 py probes Ef Ht) as [_ Hev]. rewrite Hev in Hin.
    exfalso. tail_cases; try not_a_probe; try event_clash.
Qed.

(** On Windows with the [py] launcher: [py -3.11 -m venv VENV]. *)
Lemma creation_uses_discovered_interpreter_witness :
  exists p,
    completion (findPython311Plus (host := py_launcher_host) (disk [])) = Normal (Some p) /\
    In p (candidates (host := py_launcher_host)) /\
    SpawnSync (str "py") [str "-3.11"; str "-m"; str "venv"; VENV (host := py_launcher_host)]
              inherit (exited 0) =
    SpawnSync (hd [] (split 32 p))
              (tl (split 32 p) ++ [str "-m"; str "venv"; VENV (host := py_launcher_host)])
              inherit (exited 0).
Proof.
  assert (Hin : In (SpawnSync (str "py")
                      [str "-3.11"; str "-m"; str "venv"; VENV (host := py_launcher_host)]
                      inherit (exited 0))
                   (events (main (host := py_launcher_host) (disk [])))) by find_event.
  assert (Hc : CreationStep (host := py_launcher_host) (exited 0)
                 (SpawnSync (str "py")
                    [str "-3.11"; str "-m"; str "venv"; VENV (host := py_launcher_host)]
                    inherit (exited 0)))
    by (exists (str "py"), [str "-3.11"]; reflexivity).
  exact (@creation_uses_discovered_interpreter py_launcher_host (disk []) (exited 0) _ Hin Hc).
Defined.

(** X4.  The child processes of a provisioning run, in order: the probes
    of discovery (at most four), then at most one environment creation by
    the discovered candidate, then at most the toolchain upgrade followed
    by the package install.  Nothing else is started, nothing is started
    twice, and the install never comes without the upgrade before it. *)
Theorem main_child_processes (host : Host) (w : OS) :
  exists create later,
    calls (events (main w)) = calls (events (findPython311Plus w)) ++ create ++ later /\
    List.length (calls (events (findPython311Plus w))) <= 4 /\
    (create = [] \/
     exists p,
       completion (findPython311Plus w) = Normal (Some p) /\
       create = [(hd [] (split 32 p),
                  tl (split 32 p) ++ [str "-m"; str "venv"; VENV], inherit)]) /\
    (later = [] \/ later = [upgrade_call] \/ later = [upgrade_call; install_call]).
Proof.
  destruct (discovery_summary host w) as (py & w1 & probes & Ef & Hp & Hlen & Hcand).
  rewrite Ef. change (events (Normal py, w1, probes)) with probes.
  destruct (truthy_opt py) eqn:Ht.
  - destruct py as [p|]; [|discriminate Ht].
    assert (Hne : p <> []) by (intros ->; discriminate Ht).
    destruct (split 32 p) as [|cmd pre] eqn:Es; [now apply split_not_nil in Es|].
    destruct (@main_found _ w w1 p probes cmd pre Ef Hne Es) as (tail & Hev & R).
    rewrite Hev, calls_app.
    remember (completion (main w)) as c eqn:Ec. clear Ec Hev.
    assert (Hcreate :
      forall res,
        calls [ExistsSync VENV false;
               ConsoleLog (str "[rql-py] Creating virtual environment...");
               SpawnSync cmd (pre ++ [str "-m"; str "venv"; VENV]) inherit res]
        = [(cmd, pre ++ [str "-m"; str "venv"; VENV], inherit)]) by reflexivity.
    assert (Hdir : forall dir, EnsuredDir VENDOR dir -> calls dir = [])
      by (intros dir [|]; reflexivity).
    assert (Hvenv : forall venv, VenvReadyBy cmd pre venv ->
              calls venv = [] \/
              calls venv = [(cmd, pre ++ [str "-m"; str "venv"; VENV], inherit)])
      by (intros venv [|res Hr]; [left | right]; reflexivity).
    assert (Hmade : forall create,
              create = [] \/
              create = [(cmd, pre ++ [str "-m"; str "venv"; VENV], inherit)] ->
              create = [] \/
              exists p0,
                completion (Normal (Some p) : Completion (option jsstring), w1, probes)
                  = Normal (Some p0) /\
                create = [(hd [] (split 32 p0),
                           tl (split 32 p0) ++ [str "-m"; str "venv"; VENV], inherit)]).
    { intros create [->| ->]; [left; reflexivity|].
      right. exists p. rewrite Es. split; reflexivity. }
    destruct R as [ | dir res Hd Hr | dir venv res Hd Hv Hr
                  | dir venv res1 res2 Hd Hv Hr1 Hr2
                  | dir venv res1 res2 Hd Hv Hr1 Hr2 ].
    + exists [], []. split; [reflexivity|].
      split; [exact Hlen|]. split; now left.
    + exists [(cmd, pre ++ [str "-m"; str "venv"; VENV], inherit)], [].
      rewrite calls_app, (Hdir _ Hd). split; [reflexivity|].
      split; [exact Hlen|]. split; [apply Hmade; now right | now left].
    + exists (calls venv), [upgrade_call].
      rewrite !calls_app, (Hdir _ Hd). split; [reflexivity|].
      split; [exact Hlen|]. split; [apply Hmade, Hvenv, Hv | right; now left].
    + exists (calls venv), [upgrade_call; install_call].
      rewrite !calls_app, (Hdir _ Hd). split; [reflexivity|].
      split; [exact Hlen|]. split; [apply Hmade, Hvenv, Hv | right; now right].
    + exists (calls venv), [upgrade_call; install_call].
      rewrite !calls_app, (Hdir _ Hd). split; [reflexivity|].
      split; [exact Hlen|]. split; [apply Hmade, Hvenv, Hv | right; now right].
  - destruct (@main_not_found _ w w1 py probes Ef Ht) as [_ Hev].
    exists [], []. rewrite Hev, calls_app. split; [reflexivity|].
    split; [exact Hlen|]. split; now left.
Qed.

(** X5.  How a provisioning run can end.  It never calls
    [process.exit(0)]: an exit code is always non-zero and the last thing
    done before it is a line on the error stream.  A run that reaches the
    end of the script wrote nothing to the error stream and its last
    line is the completion message.  The only uncaught exception is the
    one of creating the vendor directory, before any step.  It never
    signals itself. *)
Theorem main_endings (host : Host) (w : OS) :
  match completion (main w) with
  | Normal _ =>
      (forall msg, ~ In (ConsoleError msg) (events (main w))) /\
      exists before,
        events (main w) =
        before ++ [ConsoleLog (str "[rql-py] Install complete. You can now run: rql")]
  | Exit code =>
      code <> 0%Z /\
      exists before msg, events (main w) = before ++ [ConsoleError msg]
  | Uncaught =>
      exists probes,
        Forall IsProbe probes /\
        events (main w) = probes ++ [ExistsSync VENDOR false; MkdirSync VENDOR]
  | Signalled _ => False
  end.
Proof.
  pose proof (main_run w) as R.
  remember (completion (main w)) as c eqn:Ec.
  remember (events (main w)) as es eqn:Ees.
  clear Ec Ees.
  assert (Hperr : forall ps m, Forall IsProbe ps -> ~ In (ConsoleError m) ps).
  { intros ps m Hp H. rewrite Forall_forall in Hp.
    destruct (Hp _ H) as [cr Hcr]. discriminate Hcr. }
  destruct R.
  - split; [discriminate|]. eexists (probes ++ [_; _]), _.
    rewrite <- app_assoc. reflexivity.
  - exists probes. split; [assumption | reflexivity].
  - split; [assumption|]. eexists (probes ++ dir ++ [_; _; _]), _.
    rewrite <- !app_assoc. reflexivity.
  - split; [discriminate|]. eexists (probes ++ dir ++ venv ++ [_; _]), _.
    rewrite <- !app_assoc. reflexivity.
  - split; [discriminate|]. eexists (probes ++ dir ++ venv ++ [_; _; _; _]), _.
    rewrite <- !app_assoc. reflexivity.
  - split.
    + intros msg Hin. event_cases;
        try (eapply Hperr; eassumption); try discriminate Hin.
    + eexists (probes ++ dir ++ venv ++ [_; _; _; _]).
      rewrite <- !app_assoc. reflexivity.
Qed.

(** X6.  The two scripts agree on the interpreter of the environment: every
    child the provisioner starts with a working directory (the pip
    commands) runs the path the launcher tests and delegates to, in the
    launcher's installation root, and is one of the two pip commands. *)
Theorem pip_steps_use_launcher_interpreter
    (host : Host) (w : OS) (cmd : jsstring) (a : list jsstring) (o : SpawnOptions)
    (res : SpawnSyncReturns) :
  In (SpawnSync cmd a o res) (events (main w)) -> cwd o <> None ->
  cmd = Launcher.venvPython /\ cwd o = Some Launcher.ROOT /\
  (a = upgrade_args \/ a = install_args).
Proof.
  intros Hin Hcwd.
  pose proof (main_run w) as R.
  remember (completion (main w)) as c eqn:Ec.
  remember (events (main w)) as es eqn:Ees.
  clear Ec Ees.
  destruct R; event_cases;
    try (exfalso; apply Hcwd; eapply probes_no_cwd; eassumption);
    try discriminate Hin.
  all: unfold UpgradeStep, InstallStep in Hin; injection Hin as <- <- <- _.
  all: try (exfalso; apply Hcwd; reflexivity).
  all: split; [reflexivity | split; [reflexivity | auto]].
Qed.

Lemma pip_steps_use_launcher_interpreter_witness :
  str "/opt/rql-py/vendor/venv/bin/python" = Launcher.venvPython (host := all_good_host) /\
  Some (str "/opt/rql-py") = Some (Launcher.ROOT (host := all_good_host)).
Proof.
  assert (Hin : In (SpawnSync (str "/opt/rql-py/vendor/venv/bin/python")
                      (upgrade_args) (inherit_in (str "/opt/rql-py")) (exited 0))
                   (events (main (host := all_good_host) (disk [])))) by find_event.
  assert (Hcwd : cwd (inherit_in (str "/opt/rql-py")) <> None) by discriminate.
  destruct (@pip_steps_use_launcher_interpreter all_good_host (disk []) _ _ _ _ Hin Hcwd)
    as (H1 & H2 & _).
  split; assumption.
Defined.

End ProvisioningMore.

(* ================================================================== *)
(** * The version test: further properties *)
(* ================================================================== *)

Module DiscoveryMore.

Import JS Node Postinstall Spec Behaviour Demo Facts Discovery DiscoveryClaims.
Local Open Scope js_scope.

Lemma trimStart_ws (ws s : jsstring) :
  AllWhiteSpace ws -> trimStart (ws ++ s) = trimStart s.
Proof.
  intros H; induction H as [|c ws Hc _ IH]; simpl; [reflexivity|].
  now rewrite Hc.
Qed.

Lemma trimStart_all_ws (ws : jsstring) : AllWhiteSpace ws -> trimStart ws = [].
Proof.
  intros H. rewrite <- (app_nil_r ws). now rewrite trimStart_ws.
Qed.

Lemma trimEnd_ws (s ws : jsstring) :
  AllWhiteSpace ws -> trimEnd (s ++ ws) = trimEnd s.
Proof.
  intros H. unfold trimEnd. rewrite rev_app_distr, trimStart_ws; [reflexivity|].
  now apply Forall_rev.
Qed.

Lemma trim_start_app_ws (s ws : jsstring) :
  AllWhiteSpace ws -> trimEnd (trimStart (s ++ ws)) = trimEnd (trimStart s).
Proof.
  intros H. induction s as [|c s IH]; simpl.
  - now rewrite trimStart_all_ws.
  - destruct (isStrWhiteSpaceChar c); [exact IH|].
    change (c :: s ++ ws) with ((c :: s) ++ ws). now apply trimEnd_ws.
Qed.

(** [trim] removes any white space around a string. *)
Lemma trim_ws (ws out ws' : jsstring) :
  AllWhiteSpace ws -> AllWhiteSpace ws' -> trim (ws ++ out ++ ws') = trim out.
Proof.
  intros H H'. unfold trim. now rewrite trimStart_ws, trim_start_app_ws.
Qed.

(** X7.  White space around the probe's output (the newline Python prints,
    a carriage return before it on Windows, stray blanks) has no effect on
    the version test, nor on whether the probe result is accepted. *)
Theorem version_test_ignores_white_space
    (ws out ws' : jsstring) (st : option Z) (sg er : option jsstring) :
  AllWhiteSpace ws -> AllWhiteSpace ws' ->
  version_ok (ws ++ out ++ ws') = version_ok out /\
  accepted {| status := st; signal := sg; stdout := Some (ws ++ out ++ ws'); error := er |}
  = accepted {| status := st; signal := sg; stdout := Some out; error := er |}.
Proof.
  intros H H'.
  assert (Hv : version_ok (ws ++ out ++ ws') = version_ok out)
    by (unfold version_ok; now rewrite trim_ws).
  split; [exact Hv|].
  unfold accepted; cbn [status stdout].
  destruct st as [[| |]|]; try reflexivity.
  rewrite Hv. destruct out as [|c out].
  - change (version_ok []) with false. now rewrite andb_false_r.
  - destruct ws; reflexivity.
Qed.

(** A 3.12 that prints [3.12] with a carriage return and a newline. *)
Lemma version_test_ignores_white_space_witness :
  accepted {| status := Some 0%Z; signal := None;
              stdout := Some (str "3.12" ++ [13%N; 10%N]); error := None |} = true.
Proof.
  assert (H0 : AllWhiteSpace []) by constructor.
  assert (H1 : AllWhiteSpace [13%N; 10%N]) by (repeat constructor).
  exact (eq_trans (proj2 (@version_test_ignores_white_space [] (str "3.12") [13%N; 10%N]
                            (Some 0%Z) None None H0 H1)) eq_refl).
Defined.

Lemma split_dot_app (a r : jsstring) :
  DotFree a -> split 46 (a ++ 46%N :: r) = a :: split 46 r.
Proof.
  unfold DotFree. induction a as [|c a IH]; intros H; simpl.
  - reflexivity.
  - destruct (N.eqb_spec c 46) as [->|_]; [exfalso; apply H; now left|].
    rewrite IH; [reflexivity|]. intros Hin; apply H; now right.
Qed.

Lemma split_dot_free (a : jsstring) : DotFree a -> split 46 a = [a].
Proof.
  unfold DotFree. induction a as [|c a IH]; intros H; simpl.
  - reflexivity.
  - destruct (N.eqb_spec c 46) as [->|_]; [exfalso; apply H; now left|].
    rewrite IH; [reflexivity|]. intros Hin; apply H; now right.
Qed.

(** X9.  Only the first two dot-separated fields of the output count:
    whatever follows a second dot (a patch level, a release tag) is
    ignored by the version test. *)
Theorem version_test_ignores_later_fields (out out' a b t : jsstring) :
  DotFree a -> DotFree b ->
  trim out = a ++ 46%N :: b ->
  trim out' = a ++ 46%N :: b ++ 46%N :: t ->
  version_ok out' = version_ok out /\
  version_ok out = strict_eq (Number a) (of_Z 3) && ge (Number b) (of_Z 11).
Proof.
  intros Ha Hb E E'.
  assert (H2 : version_ok out = strict_eq (Number a) (of_Z 3) && ge (Number b) (of_Z 11)).
  { unfold version_ok. cbv zeta. rewrite E, (split_dot_app _ Ha), (split_dot_free Hb).
    reflexivity. }
  split; [|exact H2]. rewrite H2.
  unfold version_ok. cbv zeta.
  rewrite E', (split_dot_app _ Ha), (split_dot_app _ Hb). reflexivity.
Qed.

(** [3.11.4] passes like [3.11]. *)
Lemma version_test_ignores_later_fields_witness :
  version_ok (str "3.11.4" ++ [10%N]) = version_ok (str "3.11" ++ [10%N]) /\
  version_ok (str "3.11" ++ [10%N]) = true.
Proof.
  assert (Ha : DotFree (str "3")) by (intros [H|[]]; discriminate H).
  assert (Hb : DotFree (str "11")) by (intros [H|[H|[]]]; discriminate H).
  destruct (@version_test_ignores_later_fields
              (str "3.11" ++ [10%N]) (str "3.11.4" ++ [10%N])
              (str "3") (str "11") (str "4") Ha Hb eq_refl eq_refl) as [H1 H2].
  split; [exact H1|]. rewrite H2. reflexivity.
Defined.

(** A Python 3.11 is accepted by its own printed version. *)
Lemma canonical_output_accepted_witness : accepted (python_prints 3 11) = true.
Proof.
  rewrite (@canonical_output_accepted 3 11 ltac:(lia) ltac:(lia)). reflexivity.
Defined.

End DiscoveryMore.

(* ================================================================== *)
(** * Malformed probe output *)
(* ================================================================== *)

Module VersionReading.

Import JS Node Postinstall Spec Behaviour Demo Facts Discovery DiscoveryMore.
Local Open Scope js_scope.

(** ** Decimal digits *)

Lemma decimal_digit_some (c : N) (d : Z) :
  decimal_digit c = Some d -> (48 <= c <= 57)%N /\ d = Z.of_N (c - 48).
Proof.
  unfold decimal_digit.
  destruct (N.leb_spec 48 c), (N.leb_spec c 57); simpl; try discriminate.
  intros [= <-]. split; [split; assumption | reflexivity].
Qed.

Lemma digit_not_ws (c : N) : (48 <= c <= 57)%N -> isStrWhiteSpaceChar c = false.
Proof.
  intros H. unfold isStrWhiteSpaceChar.
  repeat match goal with
         | |- context [N.eqb c ?k] =>
             rewrite (proj2 (N.eqb_neq c k)) by lia
         end.
  rewrite (proj2 (N.leb_gt 8192 c)) by lia. reflexivity.
Qed.

Lemma digits_dot_free (a : jsstring) : Digits a -> DotFree a.
Proof.
  unfold Digits, DotFree. intros H Hin.
  rewrite Forall_forall in H. apply H in Hin. lia.
Qed.

Lemma decimal_value_app (acc : Z) (a b : jsstring) :
  decimal_value acc (a ++ b) = decimal_value (decimal_value acc a) b.
Proof. unfold decimal_value. apply fold_left_app. Qed.

(** ** The shape of an output that is two dot-separated numbers *)

Lemma minor_digits_shape (s : jsstring) :
  forall maj min M m,
    minor_digits maj min s = Some (M, m) ->
    exists b ws', s = b ++ ws' /\ Digits b /\ AllWhiteSpace ws' /\
                  M = maj /\ m = decimal_value min b.
Proof.
  induction s as [|c r IH]; intros maj min M m H.
  - injection H as <- <-. exists [], []. repeat split; constructor.
  - cbn [minor_digits] in H.
    destruct (decimal_digit c) as [d|] eqn:Ed.
    + apply decimal_digit_some in Ed as [Hc ->].
      apply IH in H as (b & ws' & -> & Hb & Hw & -> & ->).
      exists (c :: b), ws'. repeat split; try assumption.
      now constructor.
    + destruct (forallb isStrWhiteSpaceChar (c :: r)) eqn:Ew; [|discriminate].
      injection H as <- <-.
      exists [], (c :: r).
      split; [reflexivity|]. split; [constructor|].
      split; [|split; reflexivity].
      rewrite forallb_forall in Ew. apply Forall_forall. exact Ew.
Qed.

Lemma minor_field_shape (maj : Z) (s : jsstring) (M m : Z) :
  minor_field maj s = Some (M, m) ->
  exists b ws', s = b ++ ws' /\ Digits b /\ b <> [] /\ AllWhiteSpace ws' /\
                M = maj /\ m = decimal_value 0 b.
Proof.
  destruct s as [|c r]; [discriminate|]. cbn [minor_field].
  destruct (decimal_digit c) as [d|] eqn:Ed; [|discriminate].
  apply decimal_digit_some in Ed as [Hc ->]. intros H.
  apply minor_digits_shape in H as (b & ws' & -> & Hb & Hw & -> & ->).
  exists (c :: b), ws'.
  split; [reflexivity|]. split; [now constructor|]. split; [discriminate|].
  split; [assumption|]. split; reflexivity.
Qed.

Lemma major_digits_shape (s : jsstring) :
  forall maj M m,
    major_digits maj s = Some (M, m) ->
    exists a r, s = a ++ 46%N :: r /\ Digits a /\
                minor_field (decimal_value maj a) r = Some (M, m).
Proof.
  induction s as [|c r IH]; intros maj M m H; [discriminate|].
  cbn [major_digits] in H.
  destruct (decimal_digit c) as [d|] eqn:Ed.
  - apply decimal_digit_some in Ed as [Hc ->].
    apply IH in H as (a & r' & -> & Ha & H).
    exists (c :: a), r'. repeat split; [now constructor | exact H].
  - destruct (N.eqb_spec c 46) as [->|_]; [|discriminate].
    exists [], r. repeat split; [constructor | exact H].
Qed.

Lemma major_field_shape (s : jsstring) (M m : Z) :
  major_field s = Some (M, m) ->
  exists a b ws', s = a ++ 46%N :: b ++ ws' /\
                  Digits a /\ a <> [] /\ Digits b /\ b <> [] /\ AllWhiteSpace ws' /\
                  M = decimal_value 0 a /\ m = decimal_value 0 b.
Proof.
  destruct s as [|c r]; [discriminate|]. cbn [major_field].
  destruct (decimal_digit c) as [d|] eqn:Ed; [|discriminate].
  apply decimal_digit_some in Ed as [Hc ->]. intros H.
  apply major_digits_shape in H as (a & r' & -> & Ha & H).
  apply minor_field_shape in H as (b & ws' & -> & Hb & Hne & Hw & -> & ->).
  exists (c :: a), b, ws'.
  split; [reflexivity|]. split; [now constructor|]. split; [discriminate|].
  repeat split; assumption.
Qed.

(** An output is two dot-separated numbers exactly when it is white space,
    digits, a dot, digits and white space; the numbers read are the values
    of the two runs of digits. *)
Lemma two_numbers_shape (s : jsstring) (M m : Z) :
  two_numbers s = Some (M, m) ->
  exists ws a b ws', s = ws ++ (a ++ 46%N :: b) ++ ws' /\
                     AllWhiteSpace ws /\ AllWhiteSpace ws' /\
                     Digits a /\ a <> [] /\ Digits b /\ b <> [] /\
                     M = decimal_value 0 a /\ m = decimal_value 0 b.
Proof.
  induction s as [|c r IH]; [discriminate|]. cbn [two_numbers].
  destruct (isStrWhiteSpaceChar c) eqn:Ec.
  - intros H. apply IH in H as (ws & a & b & ws' & -> & Hw & Hw' & H).
    exists (c :: ws), a, b, ws'.
    split; [reflexivity|]. split; [now constructor|]. split; assumption.
  - intros H.
    apply major_field_shape in H as (a & b & ws' & E & Ha & Hna & Hb & Hnb & Hw & HM & Hm).
    exists [], a, b, ws'.
    split; [rewrite E, <- app_assoc; reflexivity|].
    split; [constructor|]. repeat split; assumption.
Qed.

(** ** What the code reads on such an output *)

Lemma trimStart_keeps (c : N) (s : jsstring) :
  isStrWhiteSpaceChar c = false -> trimStart (c :: s) = c :: s.
Proof. intros H; simpl; now rewrite H. Qed.

Lemma trimEnd_keeps (s : jsstring) (c : N) :
  isStrWhiteSpaceChar c = false -> trimEnd (s ++ [c]) = s ++ [c].
Proof.
  intros H. unfold trimEnd. rewrite rev_app_distr. simpl rev at 2.
  cbn [app]. rewrite trimStart_keeps by exact H.
  change (c :: rev s) with ([c] ++ rev s).
  now rewrite rev_app_distr, rev_involutive.
Qed.

(** [trim] leaves a string alone when it starts and ends with a digit. *)
Lemma trim_digits_ends (c : N) (s t : jsstring) :
  (48 <= c <= 57)%N -> Digits t -> t <> [] -> trim (c :: s ++ t) = c :: s ++ t.
Proof.
  intros Hc Ht Hne. unfold trim.
  rewrite trimStart_keeps by now apply digit_not_ws.
  destruct (exists_last Hne) as (t' & z & ->).
  apply Forall_app in Ht as [_ Hz]. inversion_clear Hz as [|? ? Hz' _].
  change (c :: s ++ t' ++ [z]) with ((c :: s) ++ t' ++ [z]).
  rewrite app_assoc. apply trimEnd_keeps. now apply digit_not_ws.
Qed.

Lemma trim_digits (a : jsstring) : Digits a -> a <> [] -> trim a = a.
Proof.
  intros Ha Hne. destruct a as [|c a]; [contradiction|].
  destruct a as [|c' a].
  - inversion_clear Ha as [|? ? Hc _]. unfold trim.
    rewrite trimStart_keeps by now apply digit_not_ws.
    apply (trimEnd_keeps []). now apply digit_not_ws.
  - inversion_clear Ha as [|? ? Hc Ha'].
    rewrite <- (app_nil_l (c' :: a)) at 1.
    rewrite (@trim_digits_ends c [] (c' :: a) Hc Ha' ltac:(discriminate)). reflexivity.
Qed.

Lemma take_digits_decimal (a : jsstring) :
  forall (acc : Z) (n : nat),
    Digits a ->
    take_digits 10 acc n a = (decimal_value acc a, (n + List.length a)%nat, []).
Proof.
  induction a as [|c a IH]; intros acc n Ha.
  - simpl. now rewrite Nat.add_0_r.
  - inversion_clear Ha as [|? ? Hc Ha'].
    cbn [take_digits]. unfold digit_of.
    rewrite (proj2 (N.leb_le 48 c)), (proj2 (N.leb_le c 57)) by lia.
    cbn [andb]. rewrite (proj2 (N.ltb_lt (c - 48) 10)) by lia.
    rewrite IH by assumption.
    cbn [List.length decimal_value fold_left].
    replace (acc * Z.of_N 10 + Z.of_N (c - 48))%Z with (10 * acc + Z.of_N (c - 48))%Z by lia.
    now rewrite Nat.add_succ_r.
Qed.

Lemma of_decimal_integer (v : Z) : of_decimal v 0 = of_Z v.
Proof.
  unfold of_decimal. destruct (Z.eqb_spec v 0) as [->|_]; [vm_compute; reflexivity|].
  cbn [Z.leb Z.compare]. now rewrite Z.pow_0_r, Z.mul_1_r.
Qed.

(** [Number] on a run of decimal digits is the binary64 value of the
    number they denote. *)
Lemma Number_digits (a : jsstring) :
  Digits a -> a <> [] -> Number a = of_Z (decimal_value 0 a).
Proof.
  intros Ha Hne. unfold Number. rewrite (trim_digits Ha Hne).
  destruct a as [|c a]; [contradiction|].
  assert (Hc : (48 <= c <= 57)%N) by now inversion Ha.
  assert (Hnd : NonDecimalIntegerLiteral (c :: a) = None).
  { assert (Hcase : c = 48%N \/ c <> 48%N) by lia.
    destruct Hcase as [->|Hc48].
    - destruct a as [|p ds]; [reflexivity|].
      assert (Hp : (48 <= p <= 57)%N)
        by (inversion_clear Ha as [|? ? _ Ha']; now inversion Ha').
      cbn [NonDecimalIntegerLiteral].
      repeat match goal with
             | |- context [N.eqb p ?k] => rewrite (proj2 (N.eqb_neq p k)) by lia
             end.
      reflexivity.
    - assert (Hten : (c = 49 \/ c = 50 \/ c = 51 \/ c = 52 \/ c = 53 \/ c = 54 \/
                      c = 55 \/ c = 56 \/ c = 57)%N) by lia.
      repeat (destruct Hten as [->|Hten]; [reflexivity|]). now subst c. }
  rewrite Hnd.
  assert (Hsd : StrDecimalLiteral (c :: a) = StrUnsignedDecimalLiteral (c :: a)).
  { assert (Hten : (c = 48 \/ c = 49 \/ c = 50 \/ c = 51 \/ c = 52 \/ c = 53 \/
                    c = 54 \/ c = 55 \/ c = 56 \/ c = 57)%N) by lia.
    repeat (destruct Hten as [->|Hten]; [reflexivity|]). now subst c. }
  rewrite Hsd. unfold StrUnsignedDecimalLiteral.
  assert (Hinf : eqb (c :: a) (str "Infinity") = false).
  { change (str "Infinity") with (73%N :: str "nfinity"). cbn [eqb].
    now rewrite (proj2 (N.eqb_neq c 73)) by lia. }
  rewrite Hinf, (take_digits_decimal 0 0 Ha).
  cbn [List.length Nat.add ExponentPart Z.of_nat Z.sub Z.opp Z.add].
  now rewrite of_decimal_integer.
Qed.

(** ** Integers below 2^53 as binary64 values *)

Lemma digits2_iter (p k : positive) :
  digits2_pos (Pos.iter xO p k) = (digits2_pos p + k)%positive.
Proof.
  revert p. induction k as [|k IH] using Pos.peano_ind; intros p.
  - simpl. lia.
  - rewrite Pos.iter_succ. simpl. rewrite IH. lia.
Qed.

Lemma digits2_bounds (p : positive) :
  (2 ^ (Zpos (digits2_pos p) - 1) <= Zpos p < 2 ^ Zpos (digits2_pos p))%Z.
Proof.
  induction p as [p IH|p IH|]; cbn [digits2_pos].
  - rewrite Pos2Z.inj_succ.
    replace (Z.succ (Zpos (digits2_pos p)) - 1)%Z with (Z.succ (Zpos (digits2_pos p) - 1))%Z by lia.
    rewrite !Z.pow_succ_r by lia. lia.
  - rewrite Pos2Z.inj_succ.
    replace (Z.succ (Zpos (digits2_pos p)) - 1)%Z with (Z.succ (Zpos (digits2_pos p) - 1))%Z by lia.
    rewrite !Z.pow_succ_r by lia. lia.
  - simpl. lia.
Qed.

(** A mantissa of 53 bits is not rounded. *)
Lemma round_aux_exact (m : positive) (e : Z) :
  Zpos (digits2_pos m) = 53%Z -> (-1074 <= e <= 971)%Z ->
  binary_round_aux prec emax false (Zpos m) e loc_Exact = S754_finite false m e.
Proof.
  intros Hd He.
  assert (Hs : shr_fexp prec emax (Zpos m) e loc_Exact =
               ({| shr_m := Zpos m; shr_r := false; shr_s := false |}, e)).
  { unfold shr_fexp. simpl Zdigits2. rewrite Hd.
    replace (fexp prec emax (53 + e) - e)%Z with 0%Z
      by (unfold fexp, emin, prec, emax; lia).
    reflexivity. }
  unfold binary_round_aux. rewrite Hs.
  cbn [shr_m loc_of_shr_record shr_r shr_s round_nearest_even].
  rewrite Hs. cbn [shr_m].
  replace (e <=? emax - prec)%Z with true; [reflexivity|].
  symmetry. apply Z.leb_le. unfold emax, prec. lia.
Qed.

(** An integer of at most 53 bits is represented exactly, with the
    exponent its number of bits gives. *)
Lemma of_Z_small (p : positive) :
  (Zpos (digits2_pos p) <= 53)%Z ->
  of_Z (Zpos p) =
  S754_finite false (fst (shl_align p 0 (Zpos (digits2_pos p) - 53)))
              (Zpos (digits2_pos p) - 53).
Proof.
  intros Hd. unfold of_Z, binary_normalize, binary_round.
  replace (fexp prec emax (Zpos (digits2_pos p) + 0))
    with (Zpos (digits2_pos p) - 53)%Z
    by (unfold fexp, emin, prec, emax; lia).
  unfold shl_align.
  replace (Zpos (digits2_pos p) - 53 - 0)%Z with (Zpos (digits2_pos p) - 53)%Z by lia.
  destruct (Zpos (digits2_pos p) - 53)%Z as [|k|k] eqn:Ek; try lia; cbn [fst].
  - apply round_aux_exact; lia.
  - apply round_aux_exact; [rewrite digits2_iter|]; lia.
Qed.

(** The mantissa stays non-negative through shifting and rounding. *)
Lemma iter_pos_invariant {A : Type} (P : A -> Prop) (f : A -> A) :
  (forall x, P x -> P (f x)) -> forall n x, P x -> P (iter_pos f n x).
Proof.
  intros Hf. induction n as [n IH|n IH|]; intros x Hx; simpl; auto.
Qed.

Lemma shr_1_nonneg (mrs : shr_record) :
  (0 <= shr_m mrs)%Z -> (0 <= shr_m (shr_1 mrs))%Z.
Proof.
  destruct mrs as [m r s]. simpl.
  destruct m as [|[p|p|]|p]; simpl; lia.
Qed.

Lemma shr_fexp_nonneg (m e : Z) (l : location) :
  (0 <= m)%Z -> (0 <= shr_m (fst (shr_fexp prec emax m e l)))%Z.
Proof.
  intros Hm. unfold shr_fexp, shr.
  assert (H0 : (0 <= shr_m (shr_record_of_loc m l))%Z)
    by (destruct l as [|[| |]]; exact Hm).
  destruct (fexp prec emax (Zdigits2 m + e) - e)%Z as [|n|n]; cbn [fst]; try exact H0.
  apply (@iter_pos_invariant _ (fun x => (0 <= shr_m x)%Z)); [exact shr_1_nonneg | exact H0].
Qed.

Lemma round_nearest_even_nonneg (m : Z) (l : location) :
  (0 <= m)%Z -> (0 <= round_nearest_even m l)%Z.
Proof.
  intros Hm. destruct l as [|[| |]]; simpl; try lia.
  destruct (Z.even m); lia.
Qed.

(** No integer converts to NaN. *)
Lemma of_Z_not_NaN (v : Z) : (0 <= v)%Z -> of_Z v <> NaN.
Proof.
  intros Hv. unfold of_Z, binary_normalize, NaN.
  destruct v as [|p|p]; [discriminate| |lia].
  unfold binary_round.
  destruct (shl_align p 0 _) as [mz ez].
  unfold binary_round_aux.
  pose proof (@shr_fexp_nonneg (Zpos mz) ez loc_Exact ltac:(lia)) as H1.
  destruct (shr_fexp prec emax (Zpos mz) ez loc_Exact) as [mrs' e']. cbn [fst] in H1.
  pose proof (@shr_fexp_nonneg _ e' loc_Exact
                (@round_nearest_even_nonneg _ (loc_of_shr_record mrs') H1)) as H2.
  destruct (shr_fexp prec emax _ e' loc_Exact) as [mrs'' e'']. cbn [fst] in H2.
  destruct (shr_m mrs'') as [|m|m]; [discriminate| |lia].
  destruct (e'' <=? emax - prec)%Z; discriminate.
Qed.

(** The two comparisons of the version test, on integers below 2^53. *)
Lemma compare_integer (v : Z) :
  (0 <= v < 2 ^ 53)%Z ->
  strict_eq (of_Z v) (of_Z 3) = (v =? 3)%Z /\
  ge (of_Z v) (of_Z 11) = (11 <=? v)%Z.
Proof.
  intros Hv.
  assert (Hsmall : forallb (fun n =>
            Bool.eqb (strict_eq (of_Z (Z.of_nat n)) (of_Z 3)) (Z.of_nat n =? 3)%Z &&
            Bool.eqb (ge (of_Z (Z.of_nat n)) (of_Z 11)) (11 <=? Z.of_nat n)%Z)
            (seq 0 16) = true) by (vm_compute; reflexivity).
  destruct (Z.lt_ge_cases v 16) as [Hlt|Hge].
  - rewrite forallb_forall in Hsmall.
    specialize (Hsmall (Z.to_nat v)). rewrite in_seq in Hsmall.
    specialize (Hsmall ltac:(lia)). rewrite Z2Nat.id in Hsmall by lia.
    apply andb_true_iff in Hsmall as [H1 H2].
    split; now apply Bool.eqb_prop.
  - destruct v as [|p|p]; try lia.
    pose proof (digits2_bounds p) as [Hlo Hhi].
    assert (Hd5 : (5 <= Zpos (digits2_pos p))%Z).
    { destruct (Z.lt_ge_cases (Zpos (digits2_pos p)) 5) as [H|H]; [|exact H].
      assert (2 ^ Zpos (digits2_pos p) <= 2 ^ 4)%Z by (apply Z.pow_le_mono_r; lia).
      change (2 ^ 4)%Z with 16%Z in *. lia. }
    assert (Hd53 : (Zpos (digits2_pos p) <= 53)%Z).
    { destruct (Z.lt_ge_cases 53 (Zpos (digits2_pos p))) as [H|H]; [|lia].
      assert (2 ^ 53 <= 2 ^ (Zpos (digits2_pos p) - 1))%Z by (apply Z.pow_le_mono_r; lia).
      lia. }
    rewrite (of_Z_small p Hd53).
    replace (of_Z 3) with (S754_finite false 6755399441055744 (-51))
      by (vm_compute; reflexivity).
    replace (of_Z 11) with (S754_finite false 6192449487634432 (-49))
      by (vm_compute; reflexivity).
    unfold strict_eq, ge, SFeqb, SFleb, SFcompare.
    rewrite (proj2 (Z.compare_gt_iff (Zpos (digits2_pos p) - 53) (-51))) by lia.
    rewrite (proj2 (Z.compare_lt_iff (-49) (Zpos (digits2_pos p) - 53))) by lia.
    split; symmetry; [apply Z.eqb_neq | apply Z.leb_le]; lia.
Qed.

Lemma decimal_value_nonneg (a : jsstring) :
  forall acc : Z, (0 <= acc)%Z -> (0 <= decimal_value acc a)%Z.
Proof.
  induction a as [|c a IH]; intros acc H; [exact H|].
  cbn [decimal_value fold_left]. apply IH. lia.
Qed.

(** On an output that is two dot-separated numbers the code reads these
    two numbers. *)
Lemma two_numbers_fields (out : jsstring) (maj min : Z) :
  two_numbers out = Some (maj, min) ->
  out <> [] /\ (0 <= maj)%Z /\ (0 <= min)%Z /\
  map Number (split 46 (trim out)) = [of_Z maj; of_Z min].
Proof.
  intros H.
  apply two_numbers_shape in H
    as (ws & a & b & ws' & -> & Hw & Hw' & Ha & Hna & Hb & Hnb & -> & ->).
  split.
  { destruct ws; [|discriminate]. destruct a; [contradiction|discriminate]. }
  split; [now apply decimal_value_nonneg|]. split; [now apply decimal_value_nonneg|].
  rewrite (trim_ws _ Hw Hw').
  assert (Ht : trim (a ++ 46%N :: b) = a ++ 46%N :: b).
  { destruct a as [|c a]; [contradiction|].
    inversion_clear Ha as [|? ? Hc _].
    change ((c :: a) ++ 46%N :: b) with (c :: a ++ 46%N :: b).
    change (46%N :: b) with ([46%N] ++ b). rewrite app_assoc.
    now apply trim_digits_ends. }
  rewrite Ht, (split_dot_app _ (digits_dot_free Ha)), (split_dot_free (digits_dot_free Hb)).
  cbn [map]. now rewrite (Number_digits Ha Hna), (Number_digits Hb Hnb).
Qed.

(** Its test is then [maj = 3] and [11 <= min]. *)
Lemma two_numbers_version_ok (out : jsstring) (maj min : Z) :
  two_numbers out = Some (maj, min) ->
  (maj < 2 ^ 53)%Z -> (min < 2 ^ 53)%Z ->
  out <> [] /\ version_ok out = (maj =? 3)%Z && (11 <=? min)%Z.
Proof.
  intros H Hmaj Hmin.
  apply two_numbers_fields in H as (Hne & H0a & H0b & E).
  split; [exact Hne|].
  unfold version_ok. cbv zeta. rewrite E.
  cbn [nth_error strict_eq_opt ge_opt].
  destruct (@compare_integer maj ltac:(lia)) as [-> _].
  destruct (@compare_integer min ltac:(lia)) as [_ ->].
  reflexivity.
Qed.

(** What the code cannot read is not two dot-separated numbers. *)
Lemma unreadable_is_malformed (out : jsstring) :
  Unreadable (Some out) -> Malformed (Some out).
Proof.
  unfold Unreadable, Malformed. intros H.
  destruct (two_numbers out) as [[maj min]|] eqn:E; [exfalso|reflexivity].
  apply two_numbers_fields in E as (Hne & H0a & H0b & E).
  destruct H as [H|H]; [contradiction|].
  apply H. exists (of_Z maj), (of_Z min). rewrite E.
  split; [reflexivity|]. split; [reflexivity|].
  split; now apply of_Z_not_NaN.
Qed.

(** C10 as stated fails.  [3.12.garbage] is not two dot-separated numbers,
    yet the probe that prints it is accepted and the search stops at its
    candidate; so are [3.11.] and [0x3.0xB]. *)
Lemma trailing_text_is_accepted :
  Malformed (stdout (prints "3.12.garbage")) /\
  accepted (prints "3.12.garbage") = true /\
  completion (findPython311Plus (host := trailing_text_host) (disk [])) =
  Normal (Some (str "python3.12")) /\
  Malformed (stdout (prints "3.11.")) /\ accepted (prints "3.11.") = true /\
  Malformed (stdout (prints "0x3.0xB")) /\ accepted (prints "0x3.0xB") = true /\
  ~ MalformedIsRejected.
Proof.
  assert (Hm : Malformed (stdout (prints "3.12.garbage"))) by (vm_compute; reflexivity).
  assert (Ha : accepted (prints "3.12.garbage") = true) by (vm_compute; reflexivity).
  split; [exact Hm|]. split; [exact Ha|].
  repeat (split; [vm_compute; reflexivity|]).
  intros H.
  destruct (H trailing_text_host (str "python3.12") [] (disk [])
              (prints "3.12.garbage") eq_refl eq_refl Hm) as [H1 _].
  rewrite Ha in H1. discriminate H1.
Qed.

(** C10, as amended.  A probe that exits with 0 is rejected, and the search
    goes on with the next candidate, when it prints nothing or when one of
    the first two dot-separated fields of its trimmed output is absent or
    converts to NaN under [Number]; every such output is malformed in the
    specification's sense, that is, not two dot-separated numbers.
    Discovery returns to its caller on every output.  A probe result is
    accepted only when these two fields convert to 3 and to a number that
    is at least 11; in particular an output that is two dot-separated
    numbers [maj.min], both below 2^53, is accepted exactly when [maj = 3]
    and [11 <= min], so no version under 3.11 gets through.  The outputs
    "Python 3.11", "garbage" and the empty output are rejected. *)
Theorem unreadable_output_is_rejected :
  (forall (host : Host) (cand : jsstring) (rest : list jsstring) (w : OS)
          (res : SpawnSyncReturns),
     completion (probe cand w) = Normal res ->
     status res = Some 0%Z -> Unreadable (stdout res) ->
     findPython311Plus_from (cand :: rest) w =
     (probe cand ;; findPython311Plus_from rest) w)
  /\ (forall out : jsstring, Unreadable (Some out) -> Malformed (Some out))
  /\ (forall (host : Host) (cs : list jsstring) (w : OS),
        exists r, completion (findPython311Plus_from cs w) = Normal r)
  /\ (forall res : SpawnSyncReturns, accepted res = true -> Qualifies res)
  /\ (forall (out : jsstring) (maj min : Z) (sg er : option jsstring),
        two_numbers out = Some (maj, min) ->
        (maj < 2 ^ 53)%Z -> (min < 2 ^ 53)%Z ->
        accepted {| status := Some 0%Z; signal := sg; stdout := Some out; error := er |}
        = (maj =? 3)%Z && (11 <=? min)%Z)
  /\ accepted (prints "Python 3.11") = false
  /\ accepted (prints "garbage") = false
  /\ accepted {| status := Some 0%Z; signal := None; stdout := Some [];
                 error := None |} = false.
Proof.
  split; [|split; [exact unreadable_is_malformed|
                   split; [|split; [|split; [|repeat split; vm_compute; reflexivity]]]]].
  - intros host cand rest w res Hc Hs Hm.
    assert (Ha : accepted res = false).
    { apply not_accepted_iff.
      intros (_ & out & maj & min & Ho & Hne & E0 & E1 & Hmaj & Hmin).
      unfold Unreadable in Hm. rewrite Ho in Hm. destruct Hm as [->|Hm]; [now apply Hne|].
      apply Hm. exists maj, min. repeat split; try assumption.
      - subst maj. rewrite of_Z_3. discriminate.
      - intros ->. rewrite ge_NaN in Hmin. discriminate. }
    simpl. unfold bind.
    destruct (probe cand w) as [[c w1] es1].
    unfold completion in Hc; simpl in Hc; subst c.
    rewrite Ha. reflexivity.
  - intros host cs w. apply find_from_returns.
  - intros res. apply accepted_iff.
  - intros out maj min sg er H Hmaj Hmin.
    destruct (two_numbers_version_ok _ H Hmaj Hmin) as [Hne Hv].
    unfold accepted; cbn [status stdout]. rewrite Hv.
    destruct out; [contradiction|reflexivity].
Qed.

(** On the banner host [python3.12] prints "Python 3.12": it is passed
    over, and so is the missing [python3.11], and [python3] is found; the
    banner is not two dot-separated numbers.  A probe that prints [3.10]
    is two numbers and is rejected; one that prints [3.11] qualifies. *)
Lemma unreadable_output_is_rejected_witness :
  Unreadable (stdout (prints "Python 3.12")) /\
  findPython311Plus_from (host := banner_host)
    [str "python3.12"; str "python3.11"; str "python3"; str "python"] (disk []) =
  (probe (host := banner_host) (str "python3.12") ;;
   findPython311Plus_from [str "python3.11"; str "python3"; str "python"]) (disk []) /\
  completion (findPython311Plus (host := banner_host) (disk [])) = Normal (Some (str "python3")) /\
  Malformed (stdout (prints "Python 3.12")) /\
  two_numbers (str "3.10" ++ [10%N]) = Some (3, 10)%Z /\
  accepted (prints "3.10") = false /\
  Qualifies (python_prints 3 11).
Proof.
  assert (Hm : Unreadable (stdout (prints "Python 3.12"))).
  { right. intros (maj & min & E0 & _ & Hmaj & _).
    vm_compute in E0. injection E0 as <-. now apply Hmaj. }
  assert (H2 : two_numbers (str "3.10" ++ [10%N]) = Some (3, 10)%Z) by reflexivity.
  split; [exact Hm|]. split; [|split; [|split; [|split; [exact H2|split]]]].
  - exact (proj1 unreadable_output_is_rejected banner_host (str "python3.12")
             [str "python3.11"; str "python3"; str "python"] (disk [])
             (prints "Python 3.12") eq_refl eq_refl Hm).
  - vm_compute; reflexivity.
  - exact (proj1 (proj2 unreadable_output_is_rejected) _ Hm).
  - exact (proj1 (proj2 (proj2 (proj2 (proj2 unreadable_output_is_rejected))))
             (str "3.10" ++ [10%N]) 3%Z 10%Z None None H2 eq_refl eq_refl).
  - exact (proj1 (proj2 (proj2 (proj2 unreadable_output_is_rejected)))
             (python_prints 3 11) eq_refl).
Defined.

End VersionReading.
(* ================================================================== *)
(** * The launcher: further properties *)
(* ================================================================== *)

Module LauncherMore.

Import JS Node Launcher Spec Behaviour Demo Facts Launching.
Local Open Scope js_scope.

(** X10.  When the environment exists the launcher is transparent: all it
    does itself is the existence test, the start of the child and, for a
    signalled child, the signal to itself; it writes nothing to the
    console, creates no directory and runs nothing synchronously.  It never
    runs off the end of the script, and a child that cannot be started is
    an uncaught exception. *)
Theorem launcher_is_transparent (host : Host) (argv : list jsstring) (w : OS) :
  os_existsSync venvPython w = true ->
  (forall e, In e (events (launcher argv w)) ->
     match e with
     | ExistsSync _ _ | Spawn _ _ _ _ | ProcessKill _ => True
     | _ => False
     end) /\
  (forall a, completion (launcher argv w) <> Normal a) /\
  match fst (os_spawn venvPython (args argv) inherit w) with
  | ErrorEvent =>
      completion (launcher argv w) = Uncaught /\
      exit_status (completion (launcher argv w)) = Some 1%Z
  | ExitEvent _ _ => True
  end.
Proof.
  intros Hex. rewrite (launcher_with_env _ _ Hex).
  destruct (fst (os_spawn venvPython (args argv) inherit w)) as [code signal|].
  - destruct signal as [[|c sig]|].
    + split; [|split; [|exact I]].
      * intros e [<-|[<-|[]]]; exact I.
      * intros a H; discriminate H.
    + rewrite on_exit_signal by discriminate.
      destruct (os_kill (c :: sig) _); (split; [|split; [|exact I]]);
        try (intros e [<-|[<-|[<-|[]]]]; exact I);
        intros a H; discriminate H.
    + split; [|split; [|exact I]].
      * intros e [<-|[<-|[]]]; exact I.
      * intros a H; discriminate H.
  - split; [|split; [|split; reflexivity]].
    + intros e [<-|[<-|[]]]; exact I.
    + intros a H; discriminate H.
Qed.

(** A child that cannot be started. *)
Lemma launcher_is_transparent_witness :
  completion (launcher (host := child_unstartable_host) example_argv launcher_disk)
    = Uncaught.
Proof.
  exact (proj1 (proj2 (proj2 (@launcher_is_transparent child_unstartable_host
                                example_argv launcher_disk eq_refl)))).
Defined.

End LauncherMore.
